(** * Genx-Eval-Backend: evaluation orchestrator and batch-metrics engine

    A shallow embedding of the Python services under
    [GEN-X/MEGAservices/evaluation/microservices]:

    - [deepeval/src/backends]: the metric envelope [BaseMetric.calculate]
      and the metric classes built by the factory;
    - [deepeval/src/core/metric_factory.py] and
      [deepeval/src/grpc_server/server.py]: the metrics engine;
    - [evaluator/src/core/grpc_client_fixed.py]: the batch client with its
      retry loop and local fallback;
    - [evaluator/src/core/evaluation_handler.py],
      [evaluator/src/api/routes/evaluation.py] and
      [evaluator/src/database/repositories/status_repo.py]: the process
      orchestrator, its in-memory status cache and the status store.

    Conventions.  Python exceptions are values of [exn] and a computation
    that may raise returns [result].  A Python dict keyed by strings is a
    [gmap string _].  Python floats are [pyfloat]: a rational, an infinity
    or NaN, with the comparison Python uses in [min] and [max]; float
    rounding of arithmetic is not modelled.  Strings are byte strings and
    the text helpers ([strip], [split], [lower]) cover ASCII.  Everything
    the code obtains from outside (the third-party scorer, the clock, the
    random generator, the RPC transport, UUIDs) is an explicit argument. *)

From Stdlib Require Import Ascii String QArith Qround Lia Lqa.
From stdpp Require Import gmap strings list pretty.

Local Open Scope string_scope.

(** ** Exceptions and results *)

Inductive exn :=
| TimeoutError                    (* asyncio.TimeoutError *)
| ImportError (msg : string)
| ValueError (msg : string)
| TypeError (msg : string)
| AttributeError (msg : string)
| KeyError (msg : string)
| ValidationError (msg : string)  (* pydantic *)
| Exception (msg : string).       (* any other Exception *)

(** [str(e)] *)
Definition str_exn (e : exn) : string :=
  match e with
  | TimeoutError => ""
  | ImportError m | ValueError m | TypeError m | AttributeError m
  | KeyError m | ValidationError m | Exception m => m
  end.

Inductive result (A : Type) :=
| Ok (a : A)
| Raise (e : exn).
Arguments Ok {A} a.
Arguments Raise {A} e.

#[global] Instance result_ret : MRet result := fun A a => Ok a.

#[global] Instance result_bind : MBind result := fun A B k r =>
  match r with
  | Ok a => k a
  | Raise e => Raise e
  end.

Definition raises {A} (r : result A) : Prop :=
  match r with Ok _ => False | Raise _ => True end.

(** ** Python values

    The values a dataset record or a message field can hold ([Any]). *)

Inductive pyobj :=
| PyStr (s : string)
| PyNone
| PyInt (z : Z)
| PyDict (d : gmap string string).

(** The truth value of an object, as [or] and [if] use it. *)
Definition truthy (o : pyobj) : bool :=
  match o with
  | PyStr s => negb (String.eqb s "")
  | PyNone => false
  | PyInt z => negb (z =? 0)%Z
  | PyDict d => negb (bool_decide (d = ∅))
  end.

(** [a or b] *)
Definition py_or (a b : pyobj) : pyobj := if truthy a then a else b.

(** [d.get(key, default)] *)
Definition dict_get (d : gmap string pyobj) (key : string) (dflt : pyobj) : pyobj :=
  default dflt (d !! key).

(** ** Python floats *)

Inductive pyfloat :=
| FNan
| FNegInf
| FFin (q : Q)
| FPosInf.

(** [a < b] on floats; every comparison with NaN is false. *)
Definition flt (a b : pyfloat) : bool :=
  match a, b with
  | FNan, _ | _, FNan => false
  | FNegInf, FNegInf => false
  | FNegInf, _ => true
  | _, FNegInf => false
  | FPosInf, _ => false
  | FFin _, FPosInf => true
  | FFin x, FFin y => if Qlt_le_dec x y then true else false
  end.

(** [min(a, b)]: keeps [a] unless [b < a]. *)
Definition py_min (a b : pyfloat) : pyfloat := if flt b a then b else a.

(** [max(a, b)]: keeps [a] unless [b > a]. *)
Definition py_max (a b : pyfloat) : pyfloat := if flt a b then b else a.

(** [max(0.0, min(1.0, score))] *)
Definition clamp (score : pyfloat) : pyfloat :=
  py_max (FFin 0) (py_min (FFin 1) score).

Definition in_unit (f : pyfloat) : Prop :=
  match f with
  | FFin q => (0 <= q)%Q /\ (q <= 1)%Q
  | _ => False
  end.

(** ** Text helpers *)

(** [str.isspace] on one ASCII character. *)
Definition is_space (c : ascii) : bool :=
  let n := nat_of_ascii c in
  ((9 <=? n)%nat && (n <=? 13)%nat) || ((28 <=? n)%nat && (n <=? 32)%nat).

Fixpoint lstrip (s : string) : string :=
  match s with
  | String c s' => if is_space c then lstrip s' else s
  | EmptyString => EmptyString
  end.

Fixpoint string_rev_app (s acc : string) : string :=
  match s with
  | EmptyString => acc
  | String c s' => string_rev_app s' (String c acc)
  end.

Definition string_rev (s : string) : string := string_rev_app s EmptyString.

(** [s.strip()] *)
Definition strip (s : string) : string :=
  string_rev (lstrip (string_rev (lstrip s))).

(** [not s], the truth value of a string. *)
Definition is_empty (s : string) : bool :=
  match s with EmptyString => true | _ => false end.

(** [s.split()]: the maximal runs of non-space characters. *)
Fixpoint split_aux (s cur : string) : list string :=
  match s with
  | EmptyString => if is_empty cur then [] else [string_rev cur]
  | String c s' =>
      if is_space c
      then (if is_empty cur then split_aux s' EmptyString
            else string_rev cur :: split_aux s' EmptyString)
      else split_aux s' (String c cur)
  end.

Definition split (s : string) : list string := split_aux s EmptyString.

Definition lower_ascii (c : ascii) : ascii :=
  let n := nat_of_ascii c in
  if (65 <=? n)%nat && (n <=? 90)%nat then ascii_of_nat (n + 32) else c.

(** [s.lower()] *)
Fixpoint lower (s : string) : string :=
  match s with
  | EmptyString => EmptyString
  | String c s' => String (lower_ascii c) (lower s')
  end.

(** [needle in hay] *)
Fixpoint contains (needle hay : string) : bool :=
  String.prefix needle hay ||
  match hay with
  | EmptyString => false
  | String _ hay' => contains needle hay'
  end.

(** [s.endswith(suffix)] *)
Definition endswith (s suffix : string) : bool :=
  String.prefix (string_rev suffix) (string_rev s).

(** [s[:n]] *)
Definition take_str (n : nat) (s : string) : string := String.substring 0 n s.

(** [len(set(a).intersection(set(b)))] *)
Definition overlap_count (a b : list string) : nat :=
  length (filter (fun w => bool_decide (w ∈ b)) (remove_dups a)).

(** [any(keyword in text for keyword in keywords)] *)
Definition any_in (keywords : list string) (text : string) : bool :=
  existsb (fun k => contains k text) keywords.

Definition Qnat (n : nat) : Q := inject_Z (Z.of_nat n).

(** [min(a, b)] on two finite floats. *)
Definition Qpy_min (a b : Q) : Q := if Qlt_le_dec b a then b else a.

Definition Qleb (a b : Q) : bool := if Qlt_le_dec b a then false else true.
Definition Qltb (a b : Q) : bool := if Qlt_le_dec a b then true else false.

(** * The metric envelope ([deepeval/src/backends]) *)

Module Metric.

(** [models.EvaluationData] *)
Record EvaluationData := {
  question : string;
  answer : string;
  context : string;
  expected_answer : string;
  reference_output : string;
  ed_metadata : gmap string string
}.

(** [models.MetricResult] *)
Record MetricResult := {
  metric_name : string;
  score : pyfloat;
  success : bool;
  error_message : option string;
  metadata : gmap string string;
  execution_time_ms : Q
}.

(** The metric classes [MetricFactory.create_metric] can build. *)
Inductive metric_class :=
| AnswerRelevancyMetric
| FaithfulnessMetric
| ContextualPrecisionMetric
| ContextualRecallMetric
| ContextualRelevancyMetric
| BiasMetric
| ToxicityMetric
| HallucinationMetric
| SummarizationMetric
| GEvalMetric.

(** [self.__class__.__name__] *)
Definition class_name (c : metric_class) : string :=
  match c with
  | AnswerRelevancyMetric => "AnswerRelevancyMetric"
  | FaithfulnessMetric => "FaithfulnessMetric"
  | ContextualPrecisionMetric => "ContextualPrecisionMetric"
  | ContextualRecallMetric => "ContextualRecallMetric"
  | ContextualRelevancyMetric => "ContextualRelevancyMetric"
  | BiasMetric => "BiasMetric"
  | ToxicityMetric => "ToxicityMetric"
  | HallucinationMetric => "HallucinationMetric"
  | SummarizationMetric => "SummarizationMetric"
  | GEvalMetric => "GEvalMetric"
  end.

(** A metric instance: its class, the attributes [__init__] sets, and
    whether [self.deepeval_metric] exists ([SummarizationMetric] built
    without the library has none). *)
Record metric := {
  cls : metric_class;
  name : string;
  timeout_seconds : nat;
  has_deepeval_metric : bool
}.

(** What the third-party library does when a metric class is built:
    the import and the scorer's constructor succeed, or raise. *)
Inductive lib_state :=
| LibOk
| LibRaises (e : exn).

Definition registry_name (c : metric_class) : string :=
  match c with
  | AnswerRelevancyMetric => "answer_relevancy"
  | FaithfulnessMetric => "faithfulness"
  | ContextualPrecisionMetric => "contextual_precision"
  | ContextualRecallMetric => "contextual_recall"
  | ContextualRelevancyMetric => "contextual_relevancy"
  | BiasMetric => "bias"
  | ToxicityMetric => "toxicity"
  | HallucinationMetric => "hallucination"
  | SummarizationMetric => "summarization"
  | GEvalMetric => "geval"
  end.

Definition class_timeout (c : metric_class) : nat :=
  match c with
  | AnswerRelevancyMetric => 90
  | FaithfulnessMetric => 120
  | ContextualPrecisionMetric => 100
  | ContextualRecallMetric => 100
  | ContextualRelevancyMetric => 90
  | BiasMetric => 120
  | ToxicityMetric => 90
  | HallucinationMetric => 150
  | SummarizationMetric => 150
  | GEvalMetric => 180
  end.

Definition unavailable_message (c : metric_class) : string :=
  "DeepEval library not available for " ++
  match c with
  | AnswerRelevancyMetric => "Answer Relevancy"
  | FaithfulnessMetric => "Faithfulness"
  | ContextualPrecisionMetric => "Contextual Precision"
  | ContextualRecallMetric => "Contextual Recall"
  | ContextualRelevancyMetric => "Contextual Relevancy"
  | BiasMetric => "Bias Detection"
  | ToxicityMetric => "Toxicity Detection"
  | HallucinationMetric => "Hallucination Detection"
  | SummarizationMetric => "Summarization"
  | GEvalMetric => "GEval"
  end.

(** The [__init__] of each class.  [GEvalMetric] derives from
    [BaseMetric] and touches no library; [SummarizationMetric] falls
    back to [BaseMetric.__init__] (default timeout 60) on [ImportError];
    every other class turns [ImportError] into [Exception] and lets any
    other exception of the scorer's constructor through. *)
Definition new_metric (c : metric_class) (lib : lib_state) : result metric :=
  let built := {| cls := c; name := registry_name c;
                  timeout_seconds := class_timeout c;
                  has_deepeval_metric := true |} in
  match c with
  | GEvalMetric =>
      Ok {| cls := c; name := registry_name c;
            timeout_seconds := class_timeout c;
            has_deepeval_metric := false |}
  | SummarizationMetric =>
      match lib with
      | LibOk => Ok built
      | LibRaises (ImportError _) =>
          Ok {| cls := c; name := registry_name c; timeout_seconds := 60;
                has_deepeval_metric := false |}
      | LibRaises e => Raise e
      end
  | _ =>
      match lib with
      | LibOk => Ok built
      | LibRaises (ImportError _) => Raise (Exception (unavailable_message c))
      | LibRaises e => Raise e
      end
  end.

(** *** Input validation *)

Definition require (field msg : string) : result unit :=
  if is_empty (strip field) then Raise (ValueError msg) else Ok tt.

(** [BaseMetric._validate_input] *)
Definition base_validate_input (data : EvaluationData) : result unit :=
  _ ← require (question data) "Question cannot be empty";
  require (answer data) "Answer cannot be empty".

(** [_validate_input] of each class: the base checks, then its own. *)
Definition validate_input (c : metric_class) (data : EvaluationData)
  : result unit :=
  _ ← base_validate_input data;
  match c with
  | AnswerRelevancyMetric =>
      _ ← require (question data)
            "Question is required for answer relevancy metric";
      require (answer data) "Answer is required for answer relevancy metric"
  | FaithfulnessMetric =>
      _ ← require (context data) "Context is required for faithfulness metric";
      require (answer data) "Answer is required for faithfulness metric"
  | ContextualPrecisionMetric =>
      _ ← require (context data)
            "Context is required for contextual precision metric";
      require (expected_answer data)
        "Expected answer is required for contextual precision metric"
  | ContextualRecallMetric =>
      _ ← require (context data)
            "Context is required for contextual recall metric";
      require (expected_answer data)
        "Expected answer is required for contextual recall metric"
  | ContextualRelevancyMetric =>
      require (context data)
        "Context is required for contextual relevancy metric"
  | BiasMetric => require (answer data) "Answer is required for bias detection"
  | ToxicityMetric =>
      require (answer data) "Answer is required for toxicity detection"
  | HallucinationMetric =>
      _ ← require (answer data) "Answer is required for hallucination detection";
      require (context data) "Context is required for hallucination detection"
  | SummarizationMetric =>
      _ ← require (context data)
            "Original text (context) is required for summarization evaluation";
      require (answer data)
        "Summary (answer) is required for summarization evaluation"
  | GEvalMetric => require (answer data) "Answer is required for GEval metric"
  end.

(** *** The scorer *)

(** What the third-party scorer does during one [_calculate_metric]. *)
Inductive scorer_behaviour :=
| ImportFails                     (* deepeval is not importable *)
| TestCaseRaises (e : exn)        (* building the test case raises *)
| MeasureRaises (e : exn)         (* [a_measure] raises *)
| MeasureHangs                    (* [a_measure] outlives the timeout *)
| Measured (s : option pyfloat).  (* [a_measure] returns, [.score] is [s] *)

(** A coroutine run under [asyncio.wait_for]: it finishes, with a value
    or an exception, or it is cancelled when the timeout expires. *)
Inductive awaited (A : Type) :=
| Finished (r : result A)
| Hangs.
Arguments Finished {A} r.
Arguments Hangs {A}.

(** [except ImportError: raise Exception("DeepEval library not available")] *)
Definition wrap_import (e : exn) : exn :=
  match e with
  | ImportError _ => Exception "DeepEval library not available"
  | _ => e
  end.

(** [DeepEvalMetricWrapper._calculate_metric]: returns
    [float(self.deepeval_metric.score)] as the scorer left it. *)
Definition wrapper_calculate_metric (m : metric) (sb : scorer_behaviour)
  : awaited pyfloat :=
  match sb with
  | ImportFails => Finished (Raise (Exception "DeepEval library not available"))
  | TestCaseRaises e => Finished (Raise (wrap_import e))
  | _ =>
      if has_deepeval_metric m then
        match sb with
        | MeasureRaises e => Finished (Raise (wrap_import e))
        | MeasureHangs => Hangs
        | Measured (Some s) => Finished (Ok s)
        | _ => Finished (Raise (TypeError
                 "float() argument must be a string or a real number, not 'NoneType'"))
        end
      else Finished (Raise (AttributeError
             "object has no attribute 'deepeval_metric'"))
  end.

(** [SummarizationMetric._fallback_summarization_evaluation] *)
Definition fallback_summarization_evaluation (data : EvaluationData) : pyfloat :=
  let original_length := length (split (context data)) in
  let summary_length := length (split (answer data)) in
  let compression_ratio :=
    if (0 <? original_length)%nat
    then (Qnat summary_length / Qnat original_length)%Q else 1%Q in
  let compression_score :=
    if Qleb (1#10) compression_ratio && Qleb compression_ratio (3#10)
    then 1%Q
    else if (Qleb (5#100) compression_ratio && Qltb compression_ratio (1#10))
            || (Qltb (3#10) compression_ratio && Qleb compression_ratio (5#10))
    then (7#10)%Q
    else (3#10)%Q in
  let original_words := remove_dups (split (lower (context data))) in
  let summary_words := remove_dups (split (lower (answer data))) in
  let overlap := overlap_count original_words summary_words in
  let overlap_score :=
    if (0 <? length original_words)%nat
    then Qpy_min 1 (Qnat overlap / Qnat (length original_words) * 3)%Q
    else (5#10)%Q in
  FFin (compression_score * (6#10) + overlap_score * (4#10))%Q.

(** [GEvalMetric._fallback_geval] *)
Definition fallback_geval (data : EvaluationData) (config : gmap string string)
  : pyfloat :=
  let criteria := lower (default "" (config !! "criteria")) in
  if any_in ["quality"; "good"; "accurate"] criteria then
    if (50 <? String.length (strip (answer data)))%nat
       && existsb (endswith (strip (answer data))) ["."; "!"; "?"]
    then FFin (8#10) else FFin (6#10)
  else if any_in ["relevant"; "related"] criteria then
    if negb (is_empty (question data)) && negb (is_empty (answer data)) then
      let question_words := remove_dups (split (lower (question data))) in
      let answer_words := remove_dups (split (lower (answer data))) in
      let overlap := overlap_count question_words answer_words in
      if (0 <? length question_words)%nat
      then FFin (Qpy_min 1 (Qnat overlap / Qnat (length question_words) * 2)%Q)
      else FFin (5#10)
    else FFin (5#10)
  else if any_in ["complete"; "comprehensive"] criteria then
    let answer_length := length (split (answer data)) in
    if (100 <? answer_length)%nat then FFin (9#10)
    else if (50 <? answer_length)%nat then FFin (7#10)
    else FFin (5#10)
  else FFin (5#10).

(** [_calculate_metric] of each class. *)
Definition calculate_metric (m : metric) (sb : scorer_behaviour)
    (data : EvaluationData) (config : gmap string string) : awaited pyfloat :=
  match cls m with
  | SummarizationMetric =>
      match wrapper_calculate_metric m sb with
      | Finished (Ok s) => Finished (Ok (clamp s))
      | Finished (Raise _) => Finished (Ok (fallback_summarization_evaluation data))
      | Hangs => Hangs
      end
  | GEvalMetric =>
      match sb with
      | Measured (Some s) => Finished (Ok (clamp s))
      | MeasureHangs => Hangs
      | _ => Finished (Ok (fallback_geval data config))
      end
  | _ =>
      match wrapper_calculate_metric m sb with
      | Finished (Ok s) => Finished (Ok (clamp s))
      | Finished (Raise e) => Finished (Raise e)
      | Hangs => Hangs
      end
  end.

(** The [try] block of [BaseMetric.calculate] up to the score:
    [_validate_input], then [_calculate_metric] under [wait_for]. *)
Definition try_score (m : metric) (sb : scorer_behaviour)
    (data : EvaluationData) (config : gmap string string) : awaited pyfloat :=
  match validate_input (cls m) data with
  | Raise e => Finished (Raise e)
  | Ok _ => calculate_metric m sb data config
  end.

(** *** [BaseMetric.calculate] *)

Definition timeout_message (m : metric) : string :=
  "Metric calculation timed out after " ++ pretty (timeout_seconds m) ++ "s".

Definition failure_message (e : exn) : string :=
  "Metric calculation failed: " ++ str_exn e.

Definition failed_result (m : metric) (msg : string) (start_time now : Q)
  : MetricResult :=
  {| metric_name := name m; score := FFin 0; success := false;
     error_message := Some msg; metadata := ∅;
     execution_time_ms := ((now - start_time) * 1000)%Q |}.

(** The two [except] clauses of [calculate]. *)
Definition handle_exception (m : metric) (e : exn) (start_time now : Q)
  : MetricResult :=
  match e with
  | TimeoutError => failed_result m (timeout_message m) start_time now
  | _ => failed_result m (failure_message e) start_time now
  end.

(** [BaseMetric.calculate]; [start_time] and [now] are the two readings
    of [time.time()]. *)
Definition calculate (m : metric) (sb : scorer_behaviour)
    (data : EvaluationData) (config : gmap string string)
    (start_time now : Q) : MetricResult :=
  match validate_input (cls m) data with
  | Raise e => handle_exception m e start_time now
  | Ok _ =>
      match calculate_metric m sb data config with
      | Hangs => handle_exception m TimeoutError start_time now
      | Finished (Raise e) => handle_exception m e start_time now
      | Finished (Ok s) =>
          {| metric_name := name m; score := s; success := true;
             error_message := None;
             metadata := {[ "calculation_method" := class_name (cls m) ]};
             execution_time_ms := ((now - start_time) * 1000)%Q |}
      end
  end.

(** *** Sample inputs *)

Definition bias_metric : metric :=
  {| cls := BiasMetric; name := "bias"; timeout_seconds := 120;
     has_deepeval_metric := true |}.

(** The item of the validation scenario: an empty answer. *)
Definition item_no_answer : EvaluationData :=
  {| question := "What is AI?"; answer := ""; context := "ctx";
     expected_answer := ""; reference_output := ""; ed_metadata := ∅ |}.

Definition item_ok : EvaluationData :=
  {| question := "What is AI?"; answer := "A field of computer science.";
     context := "ctx"; expected_answer := ""; reference_output := "";
     ed_metadata := ∅ |}.

End Metric.

(** * The random generator

    [random.random()] is a sequence of draws [u 0, u 1, ...] in [0, 1);
    a function that draws takes the sequence and the next position and
    returns the position after its last draw. *)

Definition rng := nat -> Q.

(** [random.uniform(a, b)] from one draw. *)
Definition uniform (a b u : Q) : Q := (a + (b - a) * u)%Q.

(** [random.randint(a, b)] from one draw. *)
Definition randint (a b : Z) (u : Q) : Z :=
  (a + Qfloor (u * inject_Z (b - a + 1)))%Z.

Definition round_half_even (x : Q) : Z :=
  let f := Qfloor x in
  let d := (x - inject_Z f)%Q in
  if Qltb d (1#2) then f
  else if Qltb (1#2) d then (f + 1)%Z
  else if Z.even f then f else (f + 1)%Z.

(** [round(x, 3)] *)
Definition round3 (x : Q) : Q := (inject_Z (round_half_even (x * 1000)) / 1000)%Q.

(** * The metrics engine ([deepeval/src/core], [deepeval/src/grpc_server]) *)

Module Engine.
Import Metric.

(** [common_pb2.EvaluationItem]; the message classes of this repository
    are plain attribute holders, so a field holds whatever it was given. *)
Record EvaluationItem := {
  ei_question : pyobj;
  ei_answer : pyobj;
  ei_context : pyobj;
  ei_expected_answer : pyobj;
  ei_reference_output : pyobj;
  ei_metadata : pyobj
}.

(** [common_pb2.BatchItem] *)
Record BatchItem := {
  bi_item_id : string;
  evaluation_data : EvaluationItem
}.

(** [deepeval_pb2.BatchMetricsRequest] *)
Record BatchMetricsRequest := {
  evaluation_items : list BatchItem;
  metrics : list string;
  process_id : string;
  user_id : string;
  global_config : gmap string string
}.

(** [common_pb2.BatchItemResult] *)
Record BatchItemResult := {
  item_id : string;
  br_question : pyobj;
  metric_scores : gmap string pyfloat;
  br_success : bool;
  br_error_message : string
}.

(** [deepeval_pb2.BatchMetricsResponse] *)
Record BatchMetricsResponse := {
  results : list BatchItemResult;
  resp_success : bool;
  resp_error_message : string;
  total_processed : nat;
  successful_count : nat;
  failed_count : nat;
  total_execution_time_ms : Q;
  summary_stats : gmap string string
}.

(** *** [MetricFactory] *)

(** The [if]/[elif] chain of [create_metric]. *)
Definition class_of_name (metric_name : string) : option metric_class :=
  if String.eqb metric_name "answer_relevancy" then Some AnswerRelevancyMetric
  else if String.eqb metric_name "faithfulness" then Some FaithfulnessMetric
  else if String.eqb metric_name "contextual_precision"
  then Some ContextualPrecisionMetric
  else if String.eqb metric_name "contextual_recall"
  then Some ContextualRecallMetric
  else if String.eqb metric_name "contextual_relevancy"
  then Some ContextualRelevancyMetric
  else if String.eqb metric_name "bias" then Some BiasMetric
  else if String.eqb metric_name "toxicity" then Some ToxicityMetric
  else if String.eqb metric_name "hallucination" then Some HallucinationMetric
  else if String.eqb metric_name "summarization" then Some SummarizationMetric
  else if String.eqb metric_name "geval" then Some GEvalMetric
  else None.

(** [MetricFactory.create_metric]: the result and the cache afterwards.
    A failed construction is not cached. *)
Definition create_metric (cache : gmap string metric)
    (lib : metric_class -> lib_state) (metric_name : string)
  : result metric * gmap string metric :=
  match cache !! metric_name with
  | Some m => (Ok m, cache)
  | None =>
      match class_of_name metric_name with
      | None => (Raise (ValueError ("Unknown metric: " ++ metric_name)), cache)
      | Some c =>
          match new_metric c (lib c) with
          | Ok m => (Ok m, <[metric_name := m]> cache)
          | Raise e => (Raise e, cache)
          end
      end
  end.

(** *** The server *)

(** Everything outside the engine that one batch depends on, indexed by
    the item and the metric name being scored. *)
Record world := {
  lib : nat -> metric_class -> lib_state;
  scorer : nat -> string -> scorer_behaviour;
  clock : nat -> string -> Q * Q
}.

(** [DeepEvalGRPCServer]: the module flags, [self.metric_factory]
    ([None] when [__init__] failed) with its cache, and the (item,
    metric) pairs on which [metric.calculate] has been invoked. *)
Record server := {
  grpc_available : bool;
  core_modules_available : bool;
  metric_factory : option (gmap string metric);
  calculations : list (nat * string)
}.

Definition default_score : pyfloat := FFin (1#2).

(** The body of [for metric_name in request.metrics], for item [i]. *)
Definition score_pair (w : world) (i : nat) (eval_data : EvaluationData)
    (st : server * gmap string pyfloat) (metric_name : string)
  : server * gmap string pyfloat :=
  let '(srv, item_scores) := st in
  match metric_factory srv with
  | None => (srv, <[metric_name := default_score]> item_scores)
  | Some cache =>
      match create_metric cache (lib w i) metric_name with
      | (Ok m, cache') =>
          let '(start_time, now) := clock w i metric_name in
          let r := calculate m (scorer w i metric_name) eval_data ∅
                     start_time now in
          ({| grpc_available := grpc_available srv;
              core_modules_available := core_modules_available srv;
              metric_factory := Some cache';
              calculations := calculations srv ++ [(i, metric_name)] |},
           <[metric_name := score r]> item_scores)
      | (Raise _, cache') =>
          ({| grpc_available := grpc_available srv;
              core_modules_available := core_modules_available srv;
              metric_factory := Some cache';
              calculations := calculations srv |},
           <[metric_name := default_score]> item_scores)
      end
  end.

(** Pydantic's check of one [str] field. *)
Definition as_str (o : pyobj) : result string :=
  match o with
  | PyStr s => Ok s
  | _ => Raise (ValidationError "Input should be a valid string")
  end.

(** [EvaluationData(question=..., answer=..., context=..., expected_answer=...)] *)
Definition to_evaluation_data (it : EvaluationItem) : result EvaluationData :=
  q ← as_str (ei_question it);
  a ← as_str (ei_answer it);
  c ← as_str (ei_context it);
  e ← as_str (ei_expected_answer it);
  Ok {| question := q; answer := a; context := c; expected_answer := e;
        reference_output := ""; ed_metadata := ∅ |}.

(** The loop [for i, item in enumerate(request.evaluation_items)] from
    index [i] on. *)
Fixpoint process_items (w : world) (metric_names : list string) (i : nat)
    (items : list BatchItem) (srv : server)
  : result (list BatchItemResult) * server :=
  match items with
  | [] => (Ok [], srv)
  | item :: rest =>
      match to_evaluation_data (evaluation_data item) with
      | Raise e => (Raise e, srv)
      | Ok eval_data =>
          let '(srv1, item_scores) :=
            foldl (score_pair w i eval_data) (srv, ∅) metric_names in
          let r := {| item_id := pretty i;
                      br_question := ei_question (evaluation_data item);
                      metric_scores := item_scores;
                      br_success := true;
                      br_error_message := "" |} in
          match process_items w metric_names (S i) rest srv1 with
          | (Ok rs, srv2) => (Ok (r :: rs), srv2)
          | (Raise e, srv2) => (Raise e, srv2)
          end
      end
  end.

(** [_process_batch_metrics_real] *)
Definition process_batch_metrics_real (w : world) (request : BatchMetricsRequest)
    (srv : server) : result BatchMetricsResponse * server :=
  match process_items w (metrics request) 0 (evaluation_items request) srv with
  | (Raise e, srv') => (Raise e, srv')
  | (Ok rs, srv') =>
      (Ok {| results := rs; resp_success := true; resp_error_message := "";
             total_processed := length rs; successful_count := length rs;
             failed_count := 0; total_execution_time_ms := 0;
             summary_stats := ∅ |}, srv')
  end.

(** [_create_error_response] *)
Definition create_error_response (error_message : string) : BatchMetricsResponse :=
  {| results := []; resp_success := false; resp_error_message := error_message;
     total_processed := 0; successful_count := 0; failed_count := 1;
     total_execution_time_ms := 0; summary_stats := ∅ |}.

(** The scores of one item in [_create_mock_response]. *)
Fixpoint mock_scores (u : rng) (k : nat) (metric_names : list string)
    (acc : gmap string pyfloat) : gmap string pyfloat * nat :=
  match metric_names with
  | [] => (acc, k)
  | metric :: rest =>
      let s :=
        if bool_decide (metric ∈ ["bias"; "toxicity"; "hallucination"])
        then round3 (uniform 0 (3#10) (u k))
        else round3 (uniform (7#10) (95#100) (u k)) in
      mock_scores u (S k) rest (<[metric := FFin s]> acc)
  end.

Fixpoint mock_results (u : rng) (k : nat) (metric_names : list string)
    (i : nat) (items : list BatchItem) : list BatchItemResult * nat :=
  match items with
  | [] => ([], k)
  | _ :: rest =>
      let '(scores, k1) := mock_scores u k metric_names ∅ in
      let r := {| item_id := pretty i;
                  br_question := PyStr ("Mock question " ++ pretty (i + 1)%nat);
                  metric_scores := scores; br_success := true;
                  br_error_message := "" |} in
      let '(rs, k2) := mock_results u k1 metric_names (S i) rest in
      (r :: rs, k2)
  end.

(** [_create_mock_response] *)
Definition create_mock_response (u : rng) (request : BatchMetricsRequest)
  : BatchMetricsResponse :=
  let '(rs, k) := mock_results u 0 (metrics request) 0 (evaluation_items request) in
  {| results := rs; resp_success := true; resp_error_message := "";
     total_processed := length rs; successful_count := length rs;
     failed_count := 0;
     total_execution_time_ms := inject_Z (randint 1000 3000 (u k));
     summary_stats := {[ "mock_mode" := "true" ]} |}.

(** [CalculateBatchMetrics]; [start_time] and [now] are its two readings
    of the clock. *)
Definition CalculateBatchMetrics (w : world) (u : rng) (start_time now : Q)
    (request : BatchMetricsRequest) (srv : server)
  : BatchMetricsResponse * server :=
  if negb (grpc_available srv) || negb (core_modules_available srv)
  then (create_mock_response u request, srv)
  else
    match process_batch_metrics_real w request srv with
    | (Ok r, srv') =>
        ({| results := results r; resp_success := resp_success r;
            resp_error_message := resp_error_message r;
            total_processed := total_processed r;
            successful_count := successful_count r;
            failed_count := failed_count r;
            total_execution_time_ms := ((now - start_time) * 1000)%Q;
            summary_stats := summary_stats r |}, srv')
    | (Raise e, srv') => (create_error_response (str_exn e), srv')
    end.




(** The call [create_metric(metric_name)] of [score_pair] raises. *)
Definition pair_raises (w : world) (i : nat) (srv : server)
    (metric_name : string) : Prop :=
  match metric_factory srv with
  | None => True
  | Some cache => raises (create_metric cache (lib w i) metric_name).1
  end.






(** *** Sample inputs *)

(** A world in which the library is installed and every scorer call
    returns 0.9 within one second. *)
Definition quiet_world : world :=
  {| lib := fun _ _ => LibOk;
     scorer := fun _ _ => Measured (Some (FFin (9#10)));
     clock := fun _ _ => (0, 1)%Q |}.


(** A world whose scorer returns exactly 0.5. *)
Definition half_world : world :=
  {| lib := fun _ _ => LibOk;
     scorer := fun _ _ => Measured (Some (FFin (1#2)));
     clock := fun _ _ => (0, 1)%Q |}.



Definition fresh_server : server :=
  {| grpc_available := true; core_modules_available := true;
     metric_factory := Some ∅; calculations := [] |}.

Definition sample_item : BatchItem :=
  {| bi_item_id := "0";
     evaluation_data :=
       {| ei_question := PyStr "What is AI?";
          ei_answer := PyStr "A field of computer science.";
          ei_context := PyStr "ctx";
          ei_expected_answer := PyStr "";
          ei_reference_output := PyStr "";
          ei_metadata := PyDict ∅ |} |}.

(** An item whose question is [None]. *)
Definition untyped_item : BatchItem :=
  {| bi_item_id := "0";
     evaluation_data :=
       {| ei_question := PyNone;
          ei_answer := PyStr "A field of computer science.";
          ei_context := PyStr "ctx";
          ei_expected_answer := PyStr "";
          ei_reference_output := PyStr "";
          ei_metadata := PyDict ∅ |} |}.

Definition sample_request (items : list BatchItem) (names : list string)
  : BatchMetricsRequest :=
  {| evaluation_items := items; metrics := names; process_id := "p1";
     user_id := "u1"; global_config := ∅ |}.

(** The response of the real path to one [sample_item] scored with
    ["bias"] when the metric cannot be built. *)
Definition default_bias_response : BatchMetricsResponse :=
  {| results :=
       [ {| item_id := "0"; br_question := PyStr "What is AI?";
            metric_scores := {[ "bias" := default_score ]};
            br_success := true; br_error_message := "" |} ];
     resp_success := true; resp_error_message := "";
     total_processed := 1; successful_count := 1; failed_count := 0;
     total_execution_time_ms := 0; summary_stats := ∅ |}.

End Engine.

(** * The batch client ([evaluator/src/core/grpc_client_fixed.py]) *)

Module Client.
Import Engine.

(** [DeepEvalGRPCClient]: the settings read by [__init__], the module
    flag [GRPC_AVAILABLE] and whether [self.stub] has been set. *)
Record client := {
  timeout : Z;
  max_retries : Z;
  retry_delay : Q;
  grpc_available : bool;
  has_stub : bool
}.

(** What the retry loop does that can be observed from outside. *)
Inductive event :=
| Attempt (attempt : nat)
| Sleep (seconds : Q).

(** One [await asyncio.wait_for(rpc_method(request), timeout)]. *)
Definition wait_for {A} (a : Metric.awaited A) : result A :=
  match a with
  | Metric.Finished r => r
  | Metric.Hangs => Raise TimeoutError
  end.

(** The loop [for attempt in range(self.max_retries)] from [attempt] on,
    with [remaining] iterations left; [None] is the value of a call
    whose loop ends without returning. *)
Fixpoint retry_loop {A} (rpc : nat -> Metric.awaited A) (n : nat)
    (delay : Q) (remaining attempt : nat) : result (option A) * list event :=
  match remaining with
  | O => (Ok None, [])
  | S remaining' =>
      match wait_for (rpc attempt) with
      | Ok response => (Ok (Some response), [Attempt attempt])
      | Raise e =>
          if (attempt =? n - 1)%nat then (Raise e, [Attempt attempt])
          else
            let '(r, tr) := retry_loop rpc n delay remaining' (S attempt) in
            (r, Attempt attempt :: Sleep (delay * (Qnat attempt + 1)) :: tr)
      end
  end.

(** [_call_with_retries]; [rpc k] is what the [k]-th call of the RPC does. *)
Definition call_with_retries {A} (c : client) (rpc : nat -> Metric.awaited A)
  : result (option A) * list event :=
  let n := Z.to_nat (max_retries c) in
  retry_loop rpc n (retry_delay c) n 0.

(** A value of the [summary_stats] dict. *)
Inductive stat :=
| StatBool (b : bool)
| StatStr (s : string)
| StatNone.

(** The dict returned by [calculate_batch_metrics]. *)
Record BatchResult := {
  success : bool;
  results : list BatchItemResult;
  total_processed : nat;
  successful_count : nat;
  failed_count : nat;
  execution_time_ms : Q;
  summary_stats : gmap string stat
}.

(** [o[:50] + "..."] *)
Definition preview (o : pyobj) : result pyobj :=
  match o with
  | PyStr s => Ok (PyStr (take_str 50 s ++ "..."))
  | PyNone => Raise (TypeError "'NoneType' object is not subscriptable")
  | PyInt _ => Raise (TypeError "'int' object is not subscriptable")
  | PyDict _ => Raise (TypeError "unhashable type: 'slice'")
  end.

(** The scores of one item in [_mock_batch_metrics_response]. *)
Fixpoint mock_scores (u : rng) (k : nat) (metric_names : list string)
    (acc : gmap string pyfloat) : gmap string pyfloat * nat :=
  match metric_names with
  | [] => (acc, k)
  | metric :: rest =>
      let s :=
        if bool_decide (metric ∈ ["answer_relevancy"; "faithfulness";
                                  "contextual_relevancy"])
        then round3 (uniform (7#10) (95#100) (u k))
        else if bool_decide (metric ∈ ["bias"; "toxicity"; "hallucination"])
        then round3 (uniform 0 (3#10) (u k))
        else round3 (uniform (6#10) (9#10) (u k)) in
      mock_scores u (S k) rest (<[metric := FFin s]> acc)
  end.

Fixpoint mock_results (u : rng) (k : nat) (metric_names : list string)
    (i : nat) (evaluation_data : list (gmap string pyobj))
  : result (list BatchItemResult * nat) :=
  match evaluation_data with
  | [] => Ok ([], k)
  | item :: rest =>
      let '(scores, k1) := mock_scores u k metric_names ∅ in
      q ← preview (dict_get item "question" (PyStr ""));
      let r := {| item_id := pretty i; br_question := q;
                  metric_scores := scores; br_success := true;
                  br_error_message := "" |} in
      '(rs, k2) ← mock_results u k1 metric_names (S i) rest;
      Ok (r :: rs, k2)
  end.

(** [_mock_batch_metrics_response] *)
Definition mock_batch_metrics_response (u : rng)
    (evaluation_data : list (gmap string pyobj)) (metric_names : list string)
    (error : option string) : result BatchResult :=
  '(rs, k) ← mock_results u 0 metric_names 0 evaluation_data;
  Ok {| success := true; results := rs;
        total_processed := length rs; successful_count := length rs;
        failed_count := 0;
        execution_time_ms := inject_Z (randint 1000 5000 (u k));
        summary_stats :=
          {[ "mock_mode" := StatBool true;
             "error" := match error with
                        | Some e => StatStr e
                        | None => StatNone
                        end ]} |}.

(** The request built from the evaluation data. *)
Definition to_batch_item (i : nat) (item : gmap string pyobj) : BatchItem :=
  {| bi_item_id := pretty i;
     evaluation_data :=
       {| ei_question := dict_get item "question" (PyStr "");
          ei_answer := py_or (dict_get item "model_response" (PyStr ""))
                             (dict_get item "answer" (PyStr ""));
          ei_context := dict_get item "context" (PyStr "");
          ei_expected_answer := dict_get item "expected_answer" (PyStr "");
          ei_reference_output := dict_get item "reference_output" (PyStr "");
          ei_metadata := dict_get item "metadata" (PyDict ∅) |} |}.

Definition build_request (evaluation_data : list (gmap string pyobj))
    (metric_names : list string) (process_id user_id : string)
    (global_config : option (gmap string string)) : BatchMetricsRequest :=
  {| evaluation_items := imap to_batch_item evaluation_data;
     metrics := metric_names;
     process_id := process_id;
     user_id := user_id;
     global_config := default ∅ global_config |}.

(** The body of the [try] in [calculate_batch_metrics]. *)
Definition remote_batch_metrics (c : client)
    (rpc : BatchMetricsRequest -> nat -> Metric.awaited BatchMetricsResponse)
    (evaluation_data : list (gmap string pyobj)) (metric_names : list string)
    (process_id user_id : string) (global_config : option (gmap string string))
  : result BatchResult * list event :=
  let request :=
    build_request evaluation_data metric_names process_id user_id global_config in
  if negb (has_stub c)
  then (Raise (AttributeError
          "'NoneType' object has no attribute 'CalculateBatchMetrics'"), [])
  else
    match call_with_retries c (rpc request) with
    | (Raise e, tr) => (Raise e, tr)
    | (Ok None, tr) =>
        (Raise (AttributeError "'NoneType' object has no attribute 'success'"), tr)
    | (Ok (Some response), tr) =>
        if negb (resp_success response)
        then (Raise (Exception ("DeepEval service error: "
                                 ++ resp_error_message response)), tr)
        else
          (Ok {| success := true;
                 results := Engine.results response;
                 total_processed := Engine.total_processed response;
                 successful_count := Engine.successful_count response;
                 failed_count := Engine.failed_count response;
                 execution_time_ms := total_execution_time_ms response;
                 summary_stats := StatStr <$> Engine.summary_stats response |},
           tr)
    end.

(** [calculate_batch_metrics]: the value returned or the exception that
    leaves the method, with the attempts and sleeps it made. *)
Definition calculate_batch_metrics (c : client) (u : rng)
    (rpc : BatchMetricsRequest -> nat -> Metric.awaited BatchMetricsResponse)
    (evaluation_data : list (gmap string pyobj)) (metric_names : list string)
    (process_id user_id : string) (global_config : option (gmap string string))
  : result BatchResult * list event :=
  if negb (grpc_available c)
  then (mock_batch_metrics_response u evaluation_data metric_names None, [])
  else
    match remote_batch_metrics c rpc evaluation_data metric_names
            process_id user_id global_config with
    | (Ok r, tr) => (Ok r, tr)
    | (Raise e, tr) =>
        (mock_batch_metrics_response u evaluation_data metric_names
           (Some (str_exn e)), tr)
    end.

(** The attempts and the sleeps of a trace. *)
Definition attempts (tr : list event) : list nat :=
  omap (fun ev => match ev with Attempt k => Some k | Sleep _ => None end) tr.

Definition delays (tr : list event) : list Q :=
  omap (fun ev => match ev with Sleep d => Some d | Attempt _ => None end) tr.


(** *** Sample inputs *)

(** A connected client with the default settings of [config.py]. *)
Definition default_client : client :=
  {| timeout := 300; max_retries := 3; retry_delay := 1;
     grpc_available := true; has_stub := true |}.

(** An engine that never answers. *)
Definition silent_engine
  : BatchMetricsRequest -> nat -> Metric.awaited BatchMetricsResponse :=
  fun _ _ => Metric.Hangs.

Definition sample_record : gmap string pyobj :=
  <["question" := PyStr "What is AI?"]>
    (<["model_response" := PyStr "A field of computer science."]> ∅).

End Client.

(** * The process orchestrator ([evaluator/src/core/evaluation_handler.py],
      [evaluator/src/api/routes/evaluation.py], [status_repo.py]) *)

Module Orchestrator.

(** The status strings the code writes. *)
Inductive status :=
| Pending
| NotStarted
| InProgress
| Completed
| Failed
| Stopped.

Definition status_str (st : status) : string :=
  match st with
  | Pending => "Pending"
  | NotStarted => "Not Started"
  | InProgress => "In Progress"
  | Completed => "Completed"
  | Failed => "Failed"
  | Stopped => "Stopped"
  end.

#[global] Instance status_eq_dec : EqDecision status.
Proof. solve_decision. Defined.

(** *** The status store *)

(** One entry of a status document's [models] list. *)
Record model_doc := {
  md_config_id : string;
  md_model_name : string;
  md_status : status
}.

(** A document of the status collection.  [None] in [sd_models] or
    [sd_end_time] is a key the document does not have. *)
Record status_doc := {
  sd_process_id : string;
  sd_user_id : string;
  sd_models : option (list model_doc);
  sd_overall_status : status;
  sd_end_time : option Q
}.

(** The status collection behind [db_manager]: its documents, and
    whether the store answers; when it does not, every access raises
    inside the repository method's [try]. *)
Record database := {
  connected : bool;
  docs : list status_doc
}.

(** [find_one({"process_id": process_id})] *)
Definition find_by_process_id (ds : list status_doc) (process_id : string)
  : option status_doc :=
  List.find (fun d => String.eqb (sd_process_id d) process_id) ds.

(** [status_collection.update_one({"process_id": ...}, {"": status_data},
    upsert=True)].  The only key of the update document is the empty
    string; the driver checks the document before it sends anything and
    refuses one whose first key is not a [$] operator, so the call
    raises [ValueError] and the collection is left as it was. *)
Definition update_one (ds : list status_doc) (status_data : status_doc)
  : result (list status_doc) :=
  Raise (ValueError "update only works with $ operators").

(** [StatusRepository.update_status_record]: [get_collection] raises
    when the store does not answer, [update_one] raises as above; the
    method logs and re-raises. *)
Definition update_status_record (db : database) (record : status_doc)
  : result database :=
  if connected db
  then ds ← update_one (docs db) record;
       Ok {| connected := true; docs := ds |}
  else Raise (Exception "Database not connected").

(** [StatusRepository.get_status_document_by_process_id]: [None] when
    there is no document, and also when the read raises. *)
Definition get_status_document_by_process_id (db : database)
    (process_id : string) : option status_doc :=
  if connected db then find_by_process_id (docs db) process_id else None.

(** [StatusRepository.check_ongoing_task]: [False] when the read raises. *)
Definition check_ongoing_task (db : database) (user_id : string) : bool :=
  if connected db
  then existsb (fun d => String.eqb (sd_user_id d) user_id
                         && bool_decide (sd_overall_status d = InProgress))
               (docs db)
  else false.

(** *** The handler and the in-memory cache *)

(** An entry of [EvaluationHandler.task_statuses]. *)
Record task_status := {
  models : gmap string status;
  overall_status : status;
  start_time : Q;
  end_time : option Q;
  error : option string
}.

(** [models.EvaluationRequest] *)
Record EvaluationRequest := {
  file_path : string;
  metrics : list string;
  user_id : string;
  session_id : string;
  process_name : string;
  config_id : list (list (string * string));
  client_api_key : string
}.

(** [EvaluationHandler]: the attributes [__init__] derives. *)
Record handler := {
  payload : EvaluationRequest;
  org_id : string;
  h_user_id : string;
  config_ids : list string;
  model_names : list string
}.

(** [EvaluationHandler.__init__] *)
Definition new_handler (request : EvaluationRequest) (org : string) : handler :=
  let pairs := concat (config_id request) in
  {| payload := request; org_id := org; h_user_id := user_id request;
     config_ids := pairs.*1; model_names := pairs.*2 |}.

(** The orchestrator: the class-level cache, the status store and the
    background tasks handed to the framework. *)
Record state := {
  task_statuses : gmap string task_status;
  db : database;
  background_tasks : list (handler * string)
}.

Definition with_cache (s : state) (c : gmap string task_status) : state :=
  {| task_statuses := c; db := db s; background_tasks := background_tasks s |}.

Definition with_db (s : state) (d : database) : state :=
  {| task_statuses := task_statuses s; db := d;
     background_tasks := background_tasks s |}.

(** What a call of a method leaves behind: its value or its exception,
    and the orchestrator as the call left it.  A call that raises keeps
    the changes it made before the exception. *)
Definition effect : Type := result unit * state.

(** The first lines of [background_evaluation], up to its first
    [await]: the cache entry (its ["async_task"] handle is not kept). *)
Definition begin_evaluation (h : handler) (process_id : string) (now : Q)
    (s : state) : state :=
  with_cache s
    (<[process_id :=
         {| models := list_to_map ((fun m => (m, NotStarted)) <$> config_ids h);
            overall_status := InProgress;
            start_time := now; end_time := None; error := None |}]>
       (task_statuses s)).

(** [_store_initial_config]: [insert_config_record] raises when the
    store does not answer and inserts into the config collection, which
    the state does not hold, otherwise. *)
Definition store_initial_config (s : state) : effect :=
  if connected (db s) then (Ok tt, s)
  else (Raise (Exception "Database not connected"), s).

(** [_create_initial_status_record] *)
Definition create_initial_status_record (h : handler) (process_id : string)
    (s : state) : effect :=
  let record :=
    {| sd_process_id := process_id;
       sd_user_id := h_user_id h;
       sd_models :=
         Some (imap (fun index model_id =>
                 {| md_config_id := model_id;
                    md_model_name := default "" (model_names h !! index);
                    md_status := NotStarted |}) (config_ids h));
       sd_overall_status := InProgress;
       sd_end_time := None |} in
  match update_status_record (db s) record with
  | Ok d => (Ok tt, with_db s d)
  | Raise e => (Raise e, s)
  end.

Definition set_model_status (st : status) (m : model_doc) : model_doc :=
  {| md_config_id := md_config_id m; md_model_name := md_model_name m;
     md_status := st |}.

(** [_update_model_status]: the cache entry first ([KeyError] when the
    process has none), then the store, when a document of the process
    is read, has a [models] list and the index is within it. *)
Definition update_model_status (process_id : string) (index : nat)
    (model_id : string) (st : status) (s : state) : effect :=
  match task_statuses s !! process_id with
  | None => (Raise (KeyError process_id), s)
  | Some ts =>
      let ts' := {| models := <[model_id := st]> (models ts);
                    overall_status := overall_status ts;
                    start_time := start_time ts; end_time := end_time ts;
                    error := error ts |} in
      let s1 := with_cache s (<[process_id := ts']> (task_statuses s)) in
      match get_status_document_by_process_id (db s) process_id with
      | Some status_record =>
          match sd_models status_record with
          | Some ms =>
              if (index <? length ms)%nat
              then
                match update_status_record (db s)
                        {| sd_process_id := sd_process_id status_record;
                           sd_user_id := sd_user_id status_record;
                           sd_models :=
                             Some (alter (set_model_status st) index ms);
                           sd_overall_status := sd_overall_status status_record;
                           sd_end_time := sd_end_time status_record |} with
                | Ok d => (Ok tt, with_db s1 d)
                | Raise e => (Raise e, s1)
                end
              else (Ok tt, s1)
          | None => (Ok tt, s1)
          end
      | None => (Ok tt, s1)
      end
  end.

(** [_mark_model_failed] *)
Definition mark_model_failed (process_id : string) (index : nat)
    (model_id : string) (s : state) : effect :=
  update_model_status process_id index model_id Failed s.

(** [eval_repo.update_results_record]: its [update_one] is given an
    update document with the same empty key. *)
Definition update_results_record (s : state) : effect :=
  if connected (db s)
  then (Raise (ValueError "update only works with $ operators"), s)
  else (Raise (Exception "Database not connected"), s).

(** The [except] clause of [_evaluate_single_model] and the one of
    [_process_all_models]: mark the model failed; [reraise] tells
    whether the exception is raised again afterwards.  An exception of
    the marking itself replaces it. *)
Definition on_model_failure (process_id : string) (index : nat)
    (model_id : string) (reraise : bool) (e : exn) (s : state) : effect :=
  match mark_model_failed process_id index model_id s with
  | (Ok _, s') => (if reraise then Raise e else Ok tt, s')
  | (Raise e', s') => (Raise e', s')
  end.

(** [_evaluate_single_model]; [loaded] is the outcome of
    [_load_and_process_dataset] for the model. *)
Definition evaluate_single_model (h : handler) (process_id : string)
    (index : nat) (model_id : string) (loaded : result unit) (s : state)
  : effect :=
  let body : effect :=
    match update_model_status process_id index model_id InProgress s with
    | (Raise e, s1) => (Raise e, s1)
    | (Ok _, s1) =>
        match loaded with
        | Raise e => (Raise e, s1)
        | Ok _ =>
            match model_names h !! index with
            | None => (Raise (Exception "list index out of range"), s1)
            | Some _ =>
                match update_results_record s1 with
                | (Raise e, s2) => (Raise e, s2)
                | (Ok _, s2) =>
                    update_model_status process_id index model_id Completed s2
                end
            end
        end
    end in
  match body with
  | (Ok _, s') => (Ok tt, s')
  | (Raise e, s') => on_model_failure process_id index model_id true e s'
  end.

(** [_process_all_models] from [index] on: a model whose evaluation
    raised is marked failed once more and the loop goes on. *)
Fixpoint process_all_models (h : handler) (process_id : string)
    (loaded : nat -> result unit) (index : nat) (ids : list string)
    (s : state) : effect :=
  match ids with
  | [] => (Ok tt, s)
  | model_id :: rest =>
      let next := process_all_models h process_id loaded (S index) rest in
      match evaluate_single_model h process_id index model_id
              (loaded index) s with
      | (Ok _, s1) => next s1
      | (Raise e, s1) =>
          match on_model_failure process_id index model_id false e s1 with
          | (Ok _, s2) => next s2
          | (Raise e', s2) => (Raise e', s2)
          end
      end
  end.

(** [all(status == "Completed" for status in model_statuses.values())] *)
Definition all_completed (ms : gmap string status) : bool :=
  forallb (fun st => bool_decide (st = Completed)) (map_to_list ms).*2.

(** [_finalize_evaluation]: the cache entry first, then the store when
    a document of the process is read. *)
Definition finalize_evaluation (process_id : string) (now : Q) (s : state)
  : effect :=
  match task_statuses s !! process_id with
  | None => (Raise (KeyError process_id), s)
  | Some ts =>
      let final := if all_completed (models ts) then Completed else Failed in
      let ts' := {| models := models ts; overall_status := final;
                    start_time := start_time ts; end_time := Some now;
                    error := error ts |} in
      let s1 := with_cache s (<[process_id := ts']> (task_statuses s)) in
      match get_status_document_by_process_id (db s) process_id with
      | Some status_record =>
          match update_status_record (db s)
                  {| sd_process_id := sd_process_id status_record;
                     sd_user_id := sd_user_id status_record;
                     sd_models := sd_models status_record;
                     sd_overall_status := final;
                     sd_end_time := Some now |} with
          | Ok d => (Ok tt, with_db s1 d)
          | Raise e => (Raise e, s1)
          end
      | None => (Ok tt, s1)
      end
  end.

(** [_handle_evaluation_failure] *)
Definition handle_evaluation_failure (process_id : string) (now : Q)
    (err : string) (s : state) : effect :=
  match task_statuses s !! process_id with
  | None => (Raise (KeyError process_id), s)
  | Some ts =>
      let ts' := {| models := models ts; overall_status := Failed;
                    start_time := start_time ts; end_time := Some now;
                    error := Some err |} in
      let s1 := with_cache s (<[process_id := ts']> (task_statuses s)) in
      match get_status_document_by_process_id (db s) process_id with
      | Some status_record =>
          match update_status_record (db s)
                  {| sd_process_id := sd_process_id status_record;
                     sd_user_id := sd_user_id status_record;
                     sd_models := sd_models status_record;
                     sd_overall_status := Failed;
                     sd_end_time := sd_end_time status_record |} with
          | Ok d => (Ok tt, with_db s1 d)
          | Raise e => (Raise e, s1)
          end
      | None => (Ok tt, s1)
      end
  end.

(** The [try] body of [background_evaluation].
    [_calculate_metrics_via_grpc] catches every exception of its own
    and writes neither the cache nor the status collection, so it
    leaves the state as it is. *)
Definition evaluation_steps (h : handler) (process_id : string)
    (loaded : nat -> result unit) (ended : Q) (s : state) : effect :=
  match store_initial_config s with
  | (Raise e, s1) => (Raise e, s1)
  | (Ok _, s1) =>
      match create_initial_status_record h process_id s1 with
      | (Raise e, s2) => (Raise e, s2)
      | (Ok _, s2) =>
          match process_all_models h process_id loaded 0 (config_ids h) s2 with
          | (Raise e, s3) => (Raise e, s3)
          | (Ok _, s3) => finalize_evaluation process_id ended s3
          end
      end
  end.

(** [background_evaluation] from its first [await] on: the [try] body
    and the [except] clause, which records the failure and raises
    ["Evaluation failed: ..."], or the exception of the recording
    itself.  [ended] and [failed] are the readings of [datetime.now()]
    in [_finalize_evaluation] and [_handle_evaluation_failure]. *)
Definition resume_evaluation (h : handler) (process_id : string)
    (loaded : nat -> result unit) (ended failed : Q) (s : state) : effect :=
  match evaluation_steps h process_id loaded ended s with
  | (Ok _, s') => (Ok tt, s')
  | (Raise e, s') =>
      match handle_evaluation_failure process_id failed (str_exn e) s' with
      | (Ok _, s'') =>
          (Raise (Exception ("Evaluation failed: " ++ str_exn e)), s'')
      | (Raise e', s'') => (Raise e', s'')
      end
  end.

(** [background_evaluation] *)
Definition background_evaluation (h : handler) (process_id : string)
    (loaded : nat -> result unit) (started ended failed : Q) (s : state)
  : effect :=
  resume_evaluation h process_id loaded ended failed
    (begin_evaluation h process_id started s).

(** *** The routes *)

(** A route returns a response or raises an [HTTPException]. *)
Inductive http (A : Type) :=
| Respond (a : A)
| HTTPException (status_code : nat) (detail : string).
Arguments Respond {A} a.
Arguments HTTPException {A} status_code detail.

(** [models.EvaluationResponse] *)
Record EvaluationResponse := {
  resp_status_code : nat;
  resp_process_id : string;
  resp_message : string
}.

(** The [payload] dict of a start request: [None] is an absent key. *)
Record payload_data := {
  payload_file_path : option pyobj;
  pd_user_id : option pyobj;
  pd_session_id : option pyobj;
  pd_config_id : option (list (list (string * string)));
  pd_client_api_key : option pyobj;
  pd_process_name : option pyobj;
  pd_metrics : option (list string)
}.

(** Pydantic's check of a [str] field given through [payload.get]. *)
Definition str_field (o : option pyobj) (dflt : string) : result string :=
  match o with
  | None => Ok dflt
  | Some (PyStr s) => Ok s
  | Some _ => Raise (ValidationError "Input should be a valid string")
  end.

(** [EvaluationRequest(...)] from the payload; [session_uuid] is the
    [uuid4] drawn for the default session id. *)
Definition make_request (p : payload_data) (session_uuid : string)
  : result EvaluationRequest :=
  fp ← str_field (payload_file_path p) "";
  uid ← str_field (pd_user_id p) "default_user";
  sid ← str_field (pd_session_id p) session_uuid;
  key ← str_field (pd_client_api_key p) "";
  pname ← str_field (pd_process_name p) "evaluation";
  Ok {| file_path := fp;
        metrics := default ["answer_relevancy"; "faithfulness"; "bias"]
                     (pd_metrics p);
        user_id := uid; session_id := sid; process_name := pname;
        config_id := default [[("default", "default_model")]] (pd_config_id p);
        client_api_key := key |}.

Fixpoint remove_dashes (s : string) : string :=
  match s with
  | EmptyString => EmptyString
  | String c s' =>
      if Ascii.eqb c "-"%char then remove_dashes s' else String c (remove_dashes s')
  end.

(** [str(uuid.uuid4()).replace("-", "")[:8]] *)
Definition make_process_id (uuid : string) : string :=
  take_str 8 (remove_dashes uuid).

(** [evaluate_dataset]; [session_uuid] and [process_uuid] are the two
    [uuid4] values the route may draw. *)
Definition evaluate_dataset (org : string) (p : payload_data)
    (session_uuid process_uuid : string) (s : state)
  : http EvaluationResponse * state :=
  match make_request p session_uuid with
  | Raise e =>
      (HTTPException 422 ("Payload validation error: " ++ str_exn e), s)
  | Ok evaluation_request =>
      if check_ongoing_task (db s) (user_id evaluation_request)
      then (HTTPException 400 "User already has an ongoing evaluation task.", s)
      else
        let process_id := make_process_id process_uuid in
        let evaluation_handler := new_handler evaluation_request org in
        (Respond {| resp_status_code := 200;
                    resp_process_id := process_id;
                    resp_message :=
                      "Evaluation has been started in the background" |},
         {| task_statuses := task_statuses s; db := db s;
            background_tasks :=
              background_tasks s ++ [(evaluation_handler, process_id)] |})
  end.

(** The state changes of [stop_evaluation_task]. *)
Definition stop_state (process_id : string) (s : state) : result state :=
  s1 ← match get_status_document_by_process_id (db s) process_id with
       | Some status_document =>
           d ← update_status_record (db s)
                 {| sd_process_id := sd_process_id status_document;
                    sd_user_id := sd_user_id status_document;
                    sd_models := sd_models status_document;
                    sd_overall_status := Stopped;
                    sd_end_time := sd_end_time status_document |};
           Ok (with_db s d)
       | None => Ok s
       end;
  match task_statuses s1 !! process_id with
  | Some ts =>
      Ok (with_cache s1
            (<[process_id :=
                 {| models := models ts; overall_status := Stopped;
                    start_time := start_time ts; end_time := end_time ts;
                    error := error ts |}]> (task_statuses s1)))
  | None => Ok s1
  end.

(** [stop_evaluation_task] *)
Definition stop_evaluation_task (process_id : string) (s : state)
  : http (nat * string) * state :=
  match stop_state process_id s with
  | Ok s' =>
      (Respond (200, "Evaluation task " ++ process_id ++ " has been stopped"), s')
  | Raise e => (HTTPException 500 ("Error stopping task: " ++ str_exn e), s)
  end.

(** *** Histories

    What the orchestrator does, one operation after the other: a
    background task up to its first [await], the rest of a background
    task, and a stop request.  An operation that raises leaves the
    state it reached and the history goes on, as the server does. *)
Inductive op :=
| Begin (h : handler) (process_id : string) (now : Q)
| Resume (h : handler) (process_id : string) (loaded : nat -> result unit)
    (ended failed : Q)
| Stop (process_id : string).

Definition step (s : state) (o : op) : state :=
  match o with
  | Begin h process_id now => begin_evaluation h process_id now s
  | Resume h process_id loaded ended failed =>
      (resume_evaluation h process_id loaded ended failed s).2
  | Stop process_id => (stop_evaluation_task process_id s).2
  end.

(** The overall status the cache shows for a process. *)
Definition cached_overall (s : state) (process_id : string) : option status :=
  overall_status <$> task_statuses s !! process_id.

(** The cached overall status of a process after each operation of a
    history. *)
Fixpoint observe (process_id : string) (s : state) (ops : list op)
  : list (option status) :=
  match ops with
  | [] => []
  | o :: rest =>
      cached_overall (step s o) process_id :: observe process_id (step s o) rest
  end.

Definition terminal (st : status) : bool :=
  match st with
  | Completed | Failed | Stopped => true
  | _ => false
  end.

(** No terminal status of a history is followed by a different one. *)
Fixpoint stays_terminal (history : list (option status)) : bool :=
  match history with
  | Some st :: ((next :: _) as rest) =>
      (negb (terminal st) || bool_decide (next = Some st)) && stays_terminal rest
  | _ :: rest => stays_terminal rest
  | [] => true
  end.

(** *** Sample inputs *)

Definition empty_state : state :=
  {| task_statuses := ∅; db := {| connected := true; docs := [] |};
     background_tasks := [] |}.

Definition sample_payload : payload_data :=
  {| payload_file_path := Some (PyStr "data.yaml");
     pd_user_id := Some (PyStr "u1");
     pd_session_id := None;
     pd_config_id := Some [[("cfg1", "model-a")]];
     pd_client_api_key := None;
     pd_process_name := None;
     pd_metrics := Some ["bias"] |}.

Definition sample_evaluation_request : EvaluationRequest :=
  {| file_path := "data.yaml"; metrics := ["bias"]; user_id := "u1";
     session_id := "s-1"; process_name := "evaluation";
     config_id := [[("cfg1", "model-a")]]; client_api_key := "" |}.

Definition sample_handler : handler := new_handler sample_evaluation_request "org".

(** The status record of a running process of user ["u1"]. *)
Definition running_doc : status_doc :=
  {| sd_process_id := "p1"; sd_user_id := "u1";
     sd_models := Some [ {| md_config_id := "cfg1"; md_model_name := "model-a";
                            md_status := InProgress |} ];
     sd_overall_status := InProgress; sd_end_time := None |}.

(** The orchestrator while process ["p1"] of user ["u1"] runs. *)
Definition running_state : state :=
  {| task_statuses :=
       {[ "p1" := {| models := {[ "cfg1" := InProgress ]};
                     overall_status := InProgress; start_time := 0;
                     end_time := None; error := None |} ]};
     db := {| connected := true; docs := [running_doc] |};
     background_tasks := [(sample_handler, "p1")] |}.

(** Every dataset loads. *)
Definition all_loaded : nat -> result unit := fun _ => Ok tt.

(** A background task of process ["p1"] with a stop request arriving
    while the task waits at its first [await]. *)
Definition stopped_run : list op :=
  [ Begin sample_handler "p1" 0;
    Stop "p1";
    Resume sample_handler "p1" all_loaded 5 5 ].

(** The same task with the stop request arriving after it has ended. *)
Definition late_stop_run : list op :=
  [ Begin sample_handler "p1" 0;
    Resume sample_handler "p1" all_loaded 5 5;
    Stop "p1" ].

(** The same orchestrator at a moment the store cannot be read. *)
Definition unreadable_state : state :=
  {| task_statuses := task_statuses running_state;
     db := {| connected := false; docs := [running_doc] |};
     background_tasks := background_tasks running_state |}.

(** The orchestrator after process ["p1"] has begun and before its
    status record is written. *)
Definition unrecorded_state : state :=
  {| task_statuses := task_statuses running_state;
     db := {| connected := true; docs := [] |};
     background_tasks := background_tasks running_state |}.

End Orchestrator.

(** * Further sample inputs *)

Definition geval_metric : Metric.metric :=
  {| Metric.cls := Metric.GEvalMetric; Metric.name := "geval";
     Metric.timeout_seconds := 180; Metric.has_deepeval_metric := false |}.

(** An engine that hangs on the first attempt and answers on the second. *)
Definition flaky_engine
  : Engine.BatchMetricsRequest -> nat
    -> Metric.awaited Engine.BatchMetricsResponse :=
  fun _ attempt =>
    match attempt with
    | O => Metric.Hangs
    | S _ => Metric.Finished (Ok Engine.default_bias_response)
    end.

(** An engine that answers every call with an error response. *)
Definition refusing_engine
  : Engine.BatchMetricsRequest -> nat
    -> Metric.awaited Engine.BatchMetricsResponse :=
  fun _ _ => Metric.Finished (Ok (Engine.create_error_response "boom")).

(** A client configured without retries. *)
Definition impatient_client : Client.client :=
  {| Client.timeout := 300; Client.max_retries := 0; Client.retry_delay := 1;
     Client.grpc_available := true; Client.has_stub := true |}.


(** A generator whose draws are all 0. *)
Definition zero_draws : rng := fun _ => 0%Q.

(** * The metric catalogue ([deepeval/src/models.py]) *)

Module Catalog.

(** The fields of [AvailableMetrics]. *)
Definition rag_metrics : list string :=
  ["answer_relevancy"; "faithfulness"; "contextual_precision";
   "contextual_recall"; "contextual_relevancy"].

Definition safety_ethics : list string := ["bias"; "toxicity"; "hallucination"].

Definition task_specific : list string :=
  ["summarization"; "classification"; "generation"].

Definition custom_metrics : list string := ["geval"; "custom"].

(** [AvailableMetrics.all_metrics], what [get_available_metrics] reports. *)
Definition all_metrics : list string :=
  rag_metrics ++ safety_ethics ++ task_specific ++ custom_metrics.

End Catalog.

(** * Ranges of the mock scores *)





(** * The results route ([evaluator/src/api/routes/evaluation.py]) *)

Module Results.
Import Orchestrator.

(** The ["pagination"] object of a results response. *)
Record pagination := {
  page : Z;
  page_size : Z;
  total_count : Z;
  total_pages : Z
}.

(** [a // b] on integers. *)
Definition floordiv (a b : Z) : result Z :=
  if (b =? 0)%Z then Raise (Exception "integer division or modulo by zero")
  else Ok (a / b)%Z.

(** [get_process_results]: the route, given what
    [EvaluationRepository.get_process_results] returned (the rows of the
    page and the total count; [[], 0] when the repository failed). *)
Definition get_process_results {row : Type} (page page_size : Z)
    (repo : list row * Z) : http (list row * pagination) :=
  let '(results, total_count) := repo in
  match floordiv (total_count + page_size - 1) page_size with
  | Ok pages =>
      Respond (results,
               {| page := page; page_size := page_size;
                  total_count := total_count; total_pages := pages |})
  | Raise e => HTTPException 500 ("Error retrieving results: " ++ str_exn e)
  end.

End Results.

(** * The status route ([check_process_status], [get_status_details]) *)

Module Status.
Import Orchestrator.

(** [EvaluationHandler.get_status_details]: the models with their
    statuses and the overall status, from the cache when it has the
    process and from the store otherwise.  The cache's dict of models is
    listed in the order of the map. *)
Definition get_status_details (s : state) (process_id : string)
  : option (list (string * status)) * string :=
  match task_statuses s !! process_id with
  | Some task_status =>
      (Some (map_to_list (models task_status)),
       status_str (overall_status task_status))
  | None =>
      match get_status_document_by_process_id (db s) process_id with
      | Some status_doc =>
          (Some ((fun m => (md_config_id m, md_status m))
                   <$> default [] (sd_models status_doc)),
           status_str (sd_overall_status status_doc))
      | None => (None, "Process not found")
      end
  end.

(** [all(model["status"] in ["Completed", "Failed"] for model in model_statuses)] *)
Definition all_tasks_complete (model_statuses : list (string * status)) : bool :=
  forallb (fun m => bool_decide (m.2 ∈ [Completed; Failed])) model_statuses.

(** One round of the event generator of [check_process_status]: an
    error event and another round, a status event and another round, or
    a status event that ends the stream. *)
Inductive round :=
| Retry (error : string)
| Continue (model_statuses : list (string * status)) (overall : string)
| Final (model_statuses : list (string * status)) (overall : string).

Definition event_round (s : state) (process_id : string) : round :=
  match get_status_details s process_id with
  | (None, overall_status) => Retry overall_status
  | (Some model_statuses, overall_status) =>
      if all_tasks_complete model_statuses
      then Final model_statuses overall_status
      else Continue model_statuses overall_status
  end.

End Status.

(** * Properties of the metric envelope *)

Section MetricFacts.
Import Metric.

Lemma clamp_in_unit s : in_unit (clamp s).
Proof.
  unfold clamp, py_min, py_max.
  destruct s as [| |q|]; simpl; try (split; lra).
  destruct (Qlt_le_dec q 1); simpl.
  - destruct (Qlt_le_dec 0 q); simpl; lra.
  - destruct (Qlt_le_dec 0 1); simpl; lra.
Qed.

Lemma Qnat_nonneg n : (0 <= Qnat n)%Q.
Proof. unfold Qnat. change 0%Q with (inject_Z 0). rewrite <- Zle_Qle. lia. Qed.

Lemma Qnat_ratio_nonneg a b : (0 <= Qnat a / Qnat b)%Q.
Proof.
  unfold Qdiv. destruct (Qlt_le_dec 0 (Qnat b)).
  - apply Qmult_le_0_compat; [apply Qnat_nonneg|].
    apply Qlt_le_weak, Qinv_lt_0_compat; auto.
  - pose proof (Qnat_nonneg b).
    assert (Qnat b == 0)%Q as -> by lra.
    unfold Qinv; simpl. lra.
Qed.

Lemma Qpy_min_one_bounds x : (0 <= x)%Q -> (0 <= Qpy_min 1 x /\ Qpy_min 1 x <= 1)%Q.
Proof. intros Hx. unfold Qpy_min. destruct (Qlt_le_dec x 1); lra. Qed.

Lemma fallback_summarization_in_unit data :
  in_unit (fallback_summarization_evaluation data).
Proof.
  unfold fallback_summarization_evaluation. cbv zeta.
  set (r := if (0 <? _)%nat then _ else 1%Q). clearbody r.
  set (cs := if Qleb _ r && _ then _ else _).
  set (os := if (0 <? _)%nat then _ else _).
  assert (Hcs : (3#10 <= cs /\ cs <= 1)%Q).
  { subst cs.
    repeat match goal with
           | |- context [if ?b then _ else _] => destruct b
           end; lra. }
  assert (Hos : (0 <= os /\ os <= 1)%Q).
  { subst os.
    match goal with |- context [if ?b then _ else _] => destruct b end; [|lra].
    apply Qpy_min_one_bounds.
    apply Qmult_le_0_compat; [apply Qnat_ratio_nonneg | lra]. }
  clearbody cs os.
  simpl. split; nra.
Qed.

Lemma fallback_geval_in_unit data config : in_unit (fallback_geval data config).
Proof.
  unfold fallback_geval. cbv zeta.
  repeat match goal with
         | |- in_unit (if ?b then _ else _) => destruct b
         end; simpl; try lra.
  apply Qpy_min_one_bounds.
  apply Qmult_le_0_compat; [apply Qnat_ratio_nonneg | lra].
Qed.

Lemma calculate_metric_in_unit m sb data config s :
  calculate_metric m sb data config = Finished (Ok s) -> in_unit s.
Proof.
  unfold calculate_metric. intros H.
  destruct (cls m).
  10: { destruct sb as [| | | |[x|]]; inversion H; subst;
        auto using clamp_in_unit, fallback_geval_in_unit. }
  all: destruct (wrapper_calculate_metric m sb) as [[x|e]|];
    inversion H; subst;
    auto using clamp_in_unit, fallback_summarization_in_unit.
Qed.

Lemma failure_message_nonempty e : failure_message e <> "".
Proof. unfold failure_message. simpl. discriminate. Qed.

Lemma timeout_message_nonempty m : timeout_message m <> "".
Proof. unfold timeout_message. simpl. discriminate. Qed.

Lemma handle_exception_shape m e t0 t1 :
  success (handle_exception m e t0 t1) = false /\
  score (handle_exception m e t0 t1) = FFin 0 /\
  exists msg, error_message (handle_exception m e t0 t1) = Some msg /\ msg <> "".
Proof.
  destruct e; simpl; repeat split; eauto using failure_message_nonempty, timeout_message_nonempty.
Qed.

(** The result of [calculate] by the outcome of its [try] block. *)
Lemma calculate_cases m sb data config t0 t1 :
  match try_score m sb data config with
  | Finished (Ok s) =>
      calculate m sb data config t0 t1 =
      {| metric_name := name m; score := s; success := true;
         error_message := None;
         metadata := {[ "calculation_method" := class_name (cls m) ]};
         execution_time_ms := ((t1 - t0) * 1000)%Q |}
  | Finished (Raise e) =>
      calculate m sb data config t0 t1 = handle_exception m e t0 t1
  | Hangs =>
      calculate m sb data config t0 t1 = handle_exception m TimeoutError t0 t1
  end.
Proof.
  unfold try_score, calculate.
  destruct (validate_input (cls m) data) as [[]|e]; [|reflexivity].
  destruct (calculate_metric m sb data config) as [[s|e]|]; reflexivity.
Qed.

(** C1. Every failed result of [BaseMetric.calculate] (validation
    failure, timeout or any other exception) has score [0.0] and a
    non-empty error message. *)
Theorem calculate_failure_shape m sb data config t0 t1 :
  success (calculate m sb data config t0 t1) = false ->
  score (calculate m sb data config t0 t1) = FFin 0 /\
  exists msg, error_message (calculate m sb data config t0 t1) = Some msg
              /\ msg <> "".
Proof.
  pose proof (calculate_cases m sb data config t0 t1) as H.
  destruct (try_score m sb data config) as [[s|e]|]; rewrite H.
  - discriminate.
  - intros _. apply handle_exception_shape.
  - intros _. apply handle_exception_shape.
Qed.

(** C2. [BaseMetric.calculate] always returns a [MetricResult]: whatever
    the [try] block does (validation raises, the scorer raises, the
    timeout expires), the exception is turned into a failed result, a
    timeout into the timeout message and any other exception into the
    failure message. *)
Theorem calculate_never_raises m sb data config t0 t1 :
  let r := calculate m sb data config t0 t1 in
  match try_score m sb data config with
  | Finished (Ok s) => success r = true /\ score r = s
  | Finished (Raise TimeoutError) | Hangs =>
      r = failed_result m (timeout_message m) t0 t1 /\ success r = false
  | Finished (Raise e) =>
      r = failed_result m (failure_message e) t0 t1 /\ success r = false
  end.
Proof.
  cbv zeta. pose proof (calculate_cases m sb data config t0 t1) as H.
  destruct (try_score m sb data config) as [[s|e]|]; rewrite H.
  - split; reflexivity.
  - destruct e; split; reflexivity.
  - split; reflexivity.
Qed.

(** C6. A successful result of [calculate] carries a score in [0, 1],
    for every metric class of the factory and whatever the scorer
    returned; when the library's scorer returned [s], the score is
    [max(0.0, min(1.0, s))]. *)
Theorem successful_score_in_unit m sb data config t0 t1 :
  success (calculate m sb data config t0 t1) = true ->
  in_unit (score (calculate m sb data config t0 t1)) /\
  (forall s, sb = Measured (Some s) ->
             has_deepeval_metric m = true \/ cls m = GEvalMetric ->
             score (calculate m sb data config t0 t1) = clamp s).
Proof.
  pose proof (calculate_cases m sb data config t0 t1) as H.
  unfold try_score in H.
  destruct (validate_input (cls m) data) as [[]|e] eqn:Hv.
  2:{ rewrite H. destruct e; discriminate. }
  destruct (calculate_metric m sb data config) as [[x|e]|] eqn:Hc; rewrite H.
  2:{ destruct e; discriminate. }
  2:{ discriminate. }
  intros _. simpl. split.
  - eapply calculate_metric_in_unit; eauto.
  - intros s -> Hm. revert Hc. unfold calculate_metric, wrapper_calculate_metric.
    destruct Hm as [Hm|Hm]; rewrite Hm.
    + destruct (cls m); congruence.
    + congruence.
Qed.

End MetricFacts.

Section MetricExamples.
Import Metric.

Lemma calculate_failure_shape_witness :
  success (calculate bias_metric MeasureHangs item_no_answer ∅ 0 1) = false /\
  (score (calculate bias_metric MeasureHangs item_no_answer ∅ 0 1) = FFin 0 /\
   exists msg,
     error_message (calculate bias_metric MeasureHangs item_no_answer ∅ 0 1)
       = Some msg /\ msg <> "").
Proof.
  split; [reflexivity|].
  apply (calculate_failure_shape bias_metric MeasureHangs item_no_answer ∅ 0 1).
  reflexivity.
Defined.

Lemma successful_score_in_unit_witness :
  in_unit (score (calculate bias_metric (Measured (Some (FFin 7)))
                    item_ok ∅ 0 1)).
Proof.
  apply (successful_score_in_unit bias_metric (Measured (Some (FFin 7)))
           item_ok ∅ 0 1).
  reflexivity.
Defined.

Example raw_score_seven_clamped :
  score (calculate bias_metric (Measured (Some (FFin 7))) item_ok ∅ 0 1) = FFin 1.
Proof. reflexivity. Qed.

Example nan_score_clamped :
  score (calculate bias_metric (Measured (Some FNan)) item_ok ∅ 0 1) = FFin 1.
Proof. reflexivity. Qed.

Example empty_answer_fails_validation :
  calculate bias_metric (Measured (Some (FFin 1))) item_no_answer ∅ 0 1 =
  failed_result bias_metric "Metric calculation failed: Answer cannot be empty" 0 1.
Proof. reflexivity. Qed.

End MetricExamples.

(** * Properties of the metrics engine *)

Section EngineFacts.
Import Metric Engine.






Lemma process_items_ok w names : forall items i srv rs srv',
  process_items w names i items srv = (Ok rs, srv') ->
  length rs = length items /\ Forall (fun ir => br_success ir = true) rs.
Proof.
  induction items as [|item items IH]; intros i srv rs srv' H; simpl in H.
  - inversion H; subst. split; [done|constructor].
  - destruct (to_evaluation_data (evaluation_data item)) as [d|e]; [|done].
    destruct (foldl (score_pair w i d) (srv, ∅) names) as [srv1 scores].
    destruct (process_items w names (S i) items srv1) as [[rs1|e] srv2] eqn:Hr; [|done].
    inversion H; subst. destruct (IH _ _ _ _ Hr) as [Hl Hf].
    split; [simpl; lia|]. constructor; [done|done].
Qed.


Lemma mock_results_length u names : forall items k i rs k',
  mock_results u k names i items = (rs, k') -> length rs = length items.
Proof.
  induction items as [|item items IH]; intros k i rs k' H; simpl in H.
  - by inversion H.
  - destruct (Engine.mock_scores u k names ∅) as [sc k1].
    destruct (mock_results u k1 names (S i) items) as [rs1 k2] eqn:Hr.
    inversion H; subst. simpl. f_equal. eauto.
Qed.


Lemma score_pair_raises w i d srv scores metric_name :
  pair_raises w i srv metric_name ->
  (score_pair w i d (srv, scores) metric_name).2
  = <[metric_name := default_score]> scores.
Proof.
  unfold pair_raises, score_pair.
  destruct (metric_factory srv) as [cache|]; [|done].
  destruct (create_metric cache (lib w i) metric_name) as [[m|e] cache']; simpl; [tauto|done].
Qed.


Lemma process_batch_metrics_real_ok w req srv r srv' :
  process_batch_metrics_real w req srv = (Ok r, srv') ->
  process_items w (metrics req) 0 (evaluation_items req) srv = (Ok (results r), srv') /\
  resp_success r = true /\ failed_count r = 0 /\
  successful_count r = length (results r) /\
  total_processed r = length (results r).
Proof.
  unfold process_batch_metrics_real.
  destruct (process_items w (metrics req) 0 (evaluation_items req) srv)
    as [[rs|e] srv1]; [|done].
  intros H; inversion H; subst. simpl. done.
Qed.

(** C4 (amended). A response of the real or the mock path
    ([success = true]) has [successful_count + failed_count =
    total_processed = len(items)]; the error response ([success = false])
    has [total_processed = 0], [successful_count = 0] and
    [failed_count = 1]. *)
Theorem batch_counts w u t0 t1 req srv :
  let r := (CalculateBatchMetrics w u t0 t1 req srv).1 in
  if resp_success r
  then successful_count r + failed_count r = total_processed r /\
       total_processed r = length (evaluation_items req)
  else total_processed r = 0 /\ successful_count r = 0 /\ failed_count r = 1.
Proof.
  cbv zeta. unfold CalculateBatchMetrics.
  destruct (negb (grpc_available srv) || negb (core_modules_available srv)).
  - unfold create_mock_response.
    destruct (mock_results u 0 (metrics req) 0 (evaluation_items req)) as [rs k] eqn:Hm.
    simpl. apply mock_results_length in Hm. lia.
  - destruct (process_batch_metrics_real w req srv) as [[r|e] srv1] eqn:Hp; simpl.
    + apply process_batch_metrics_real_ok in Hp as (Hi & -> & -> & -> & ->).
      apply process_items_ok in Hi as [-> _]. lia.
    + done.
Qed.

End EngineFacts.

Section EnginePairs.
Import Metric Engine.















End EnginePairs.

Section EngineClaims.
Import Metric Engine.



End EngineClaims.

Section EngineExamples.
Import Metric Engine.


(** C4, counterexample: an item whose question is not a string makes
    the batch fail outright, and the error response counts one failure
    out of zero processed for a request of one item. *)
Lemma error_response_breaks_counts :
  let req := sample_request [untyped_item] ["bias"] in
  let r := (CalculateBatchMetrics quiet_world (fun _ => 0%Q) 0 1 req fresh_server).1 in
  resp_success r = false /\
  successful_count r + failed_count r <> total_processed r /\
  total_processed r <> length (evaluation_items req).
Proof. vm_compute. split; [reflexivity|]. split; discriminate. Qed.

Example genuine_half_same_response :
  process_batch_metrics_real half_world (sample_request [sample_item] ["bias"])
    fresh_server =
  (Ok default_bias_response,
   {| grpc_available := true; core_modules_available := true;
      metric_factory := Some {[ "bias" := bias_metric ]};
      calculations := [(0, "bias")] |}).
Proof. reflexivity. Qed.

End EngineExamples.

Section EngineClaimsExamples.
Import Metric Engine.




End EngineClaimsExamples.

(** * Properties of the batch client *)

Section ClientFacts.
Import Engine Client.

Lemma client_mock_results_total u names : forall data k i,
  Forall (fun item => exists s, dict_get item "question" (PyStr "") = PyStr s) data ->
  exists rs k', Client.mock_results u k names i data = Ok (rs, k')
                /\ length rs = length data.
Proof.
  induction data as [|item data IH]; intros k i Hall; simpl.
  - eauto.
  - inversion Hall as [|? ? [s Hs] Hrest]; subst.
    destruct (Client.mock_scores u k names ∅) as [sc k1].
    rewrite Hs. simpl.
    destruct (IH k1 (S i) Hrest) as (rs & k2 & -> & Hlen).
    simpl. eexists _, _. split; [reflexivity|]. simpl. lia.
Qed.

Lemma mock_batch_metrics_response_shape u data names err :
  Forall (fun item => exists s, dict_get item "question" (PyStr "") = PyStr s) data ->
  exists r,
    mock_batch_metrics_response u data names err = Ok r /\
    success r = true /\
    summary_stats r !! "mock_mode" = Some (StatBool true) /\
    summary_stats r !! "error"
      = Some (match err with Some e => StatStr e | None => StatNone end) /\
    total_processed r = length data /\
    successful_count r = length data /\
    failed_count r = 0.
Proof.
  intros Hall. unfold mock_batch_metrics_response.
  destruct (client_mock_results_total u names data 0 0 Hall) as (rs & k & -> & Hlen).
  simpl. eexists. split; [reflexivity|]. simpl.
  rewrite Hlen. repeat split; reflexivity.
Qed.



End ClientFacts.

Section ClientExamples.
Import Engine Client.



(** The fallback subscripts the question: a record whose question is
    not a string makes it raise, inside the [except] clause. *)
Example fallback_raises_on_untyped_question :
  (calculate_batch_metrics default_client (fun _ => 0%Q) silent_engine
     [<["question" := PyNone]> ∅] ["bias"] "p1" "u1" None).1
  = Raise (TypeError "'NoneType' object is not subscriptable").
Proof. vm_compute. reflexivity. Qed.

Example fallback_scores_follow_the_draw :
  (fun o => match o with
            | Ok r => metric_scores <$> results r
            | Raise _ => []
            end)
    (calculate_batch_metrics default_client (fun _ => (1#2)%Q) silent_engine
       [sample_record] ["bias"] "p1" "u1" None).1
  = [ {[ "bias" := FFin (150#1000) ]} ].
Proof. vm_compute. reflexivity. Qed.

End ClientExamples.

(** * Properties of the orchestrator *)

Section OrchestratorFacts.
Import Orchestrator.

Lemma find_by_process_id_Some ds pid d :
  find_by_process_id ds pid = Some d -> sd_process_id d = pid.
Proof.
  unfold find_by_process_id. intros H. apply find_some in H as [_ H].
  by apply String.eqb_eq in H.
Qed.

Lemma get_Some_connected db pid d :
  get_status_document_by_process_id db pid = Some d ->
  connected db = true /\ find_by_process_id (docs db) pid = Some d.
Proof.
  unfold get_status_document_by_process_id. by destruct (connected db).
Qed.

Lemma check_ongoing_task_true db u d :
  connected db = true -> d ∈ docs db ->
  sd_user_id d = u -> sd_overall_status d = InProgress ->
  check_ongoing_task db u = true.
Proof.
  intros Hc Hin Hu Hs. unfold check_ongoing_task. rewrite Hc.
  apply existsb_exists. exists d. split; [by apply list_elem_of_In|].
  rewrite Hu, String.eqb_refl, Hs. reflexivity.
Qed.

(** C7 (amended). When the status store can be read and holds a record
    of the user with overall status [In Progress], a start request of
    that user is rejected (HTTP 400, "User already has an ongoing
    evaluation task.") and the orchestrator is left as it was: no
    process id is allocated, no handler is created or scheduled and
    nothing is written to the store. *)
Theorem second_start_rejected org p session_uuid process_uuid s request d :
  make_request p session_uuid = Ok request ->
  connected (db s) = true ->
  d ∈ docs (db s) ->
  sd_user_id d = user_id request ->
  sd_overall_status d = InProgress ->
  evaluate_dataset org p session_uuid process_uuid s =
  (HTTPException 400 "User already has an ongoing evaluation task.", s).
Proof.
  intros Hr Hc Hin Hu Hs. unfold evaluate_dataset. rewrite Hr.
  by rewrite (check_ongoing_task_true _ _ _ Hc Hin Hu Hs).
Qed.

End OrchestratorFacts.

Section OrchestratorExamples.
Import Orchestrator.

Lemma second_start_rejected_witness :
  evaluate_dataset "org" sample_payload "s-2" "0a1b2c3d-0000" running_state =
  (HTTPException 400 "User already has an ongoing evaluation task.", running_state).
Proof.
  apply (second_start_rejected "org" sample_payload "s-2" "0a1b2c3d-0000"
           running_state
           {| file_path := "data.yaml"; metrics := ["bias"]; user_id := "u1";
              session_id := "s-2"; process_name := "evaluation";
              config_id := [[("cfg1", "model-a")]]; client_api_key := "" |}
           running_doc).
  - reflexivity.
  - reflexivity.
  - simpl. apply list_elem_of_In. simpl. tauto.
  - reflexivity.
  - reflexivity.
Defined.

(** C7, counterexample: process ["p1"] of user ["u1"] has begun and
    shows [In Progress], its status record is not written yet, and a
    second start of the same user is accepted with a new process id and
    a new handler. *)
Lemma second_start_accepted_before_record :
  (sample_handler, "p1") ∈ background_tasks unrecorded_state /\
  h_user_id sample_handler = "u1" /\
  cached_overall unrecorded_state "p1" = Some InProgress /\
  evaluate_dataset "org" sample_payload "s-2" "0a1b2c3d-0000-4000" unrecorded_state =
  (Respond {| resp_status_code := 200; resp_process_id := "0a1b2c3d";
              resp_message := "Evaluation has been started in the background" |},
   {| task_statuses := task_statuses unrecorded_state;
      db := db unrecorded_state;
      background_tasks :=
        [ (sample_handler, "p1");
          (new_handler
             {| file_path := "data.yaml"; metrics := ["bias"]; user_id := "u1";
                session_id := "s-2"; process_name := "evaluation";
                config_id := [[("cfg1", "model-a")]]; client_api_key := "" |}
             "org", "0a1b2c3d") ] |}).
Proof.
  split; [apply list_elem_of_In; simpl; tauto|].
  split; [reflexivity|]. split; reflexivity.
Qed.

(** [check_ongoing_task] answers [False] when the read of the store
    fails: the record says [In Progress] and the start is accepted. *)
Example second_start_accepted_when_store_unreadable :
  running_doc ∈ docs (db unreadable_state) /\
  sd_user_id running_doc = "u1" /\
  sd_overall_status running_doc = InProgress /\
  (evaluate_dataset "org" sample_payload "s-2" "0a1b2c3d-0000-4000"
     unreadable_state).1 =
  Respond {| resp_status_code := 200; resp_process_id := "0a1b2c3d";
             resp_message := "Evaluation has been started in the background" |}.
Proof.
  split; [apply list_elem_of_In; simpl; tauto|].
  split; [reflexivity|]. split; reflexivity.
Qed.

Example first_start_accepted :
  (evaluate_dataset "org" sample_payload "s-2" "0a1b2c3d-0000-4000" empty_state).1 =
  Respond {| resp_status_code := 200; resp_process_id := "0a1b2c3d";
             resp_message := "Evaluation has been started in the background" |}.
Proof. reflexivity. Qed.

End OrchestratorExamples.

Section OrchestratorWrites.
Import Orchestrator.

(** No write of the status collection succeeds. *)
Lemma update_status_record_raises db record :
  update_status_record db record =
  Raise (if connected db
         then ValueError "update only works with $ operators"
         else Exception "Database not connected").
Proof. unfold update_status_record. by destruct (connected db). Qed.

Lemma update_status_record_found db pid d record :
  get_status_document_by_process_id db pid = Some d ->
  update_status_record db record =
  Raise (ValueError "update only works with $ operators").
Proof.
  intros Hg. apply get_Some_connected in Hg as [Hc _].
  by rewrite update_status_record_raises, Hc.
Qed.


(** C8 (amended). In the cache a terminal overall status is not final.
    A stop request that reads no stored document of the process answers
    200 and sets the cached overall status to [Stopped], whatever it
    was.  [_finalize_evaluation] sets it to [Completed] when every model
    is [Completed] and to [Failed] otherwise, and
    [_handle_evaluation_failure] sets it to [Failed], whatever it was,
    [Stopped] included, and whether or not the call then raises. *)
Theorem stop_and_finalize_overwrite pid now err s ts :
  task_statuses s !! pid = Some ts ->
  (get_status_document_by_process_id (db s) pid = None ->
   exists s1,
     stop_evaluation_task pid s =
       (Respond (200, "Evaluation task " ++ pid ++ " has been stopped"), s1) /\
     cached_overall s1 pid = Some Stopped) /\
  cached_overall (finalize_evaluation pid now s).2 pid
    = Some (if all_completed (models ts) then Completed else Failed) /\
  cached_overall (handle_evaluation_failure pid now err s).2 pid = Some Failed.
Proof.
  intros Hts. split; [|split].
  - intros Hg. unfold stop_evaluation_task, stop_state. rewrite Hg. simpl.
    rewrite Hts. eexists. split; [reflexivity|].
    unfold cached_overall. simpl. by rewrite lookup_insert_eq.
  - unfold finalize_evaluation. rewrite Hts.
    destruct (get_status_document_by_process_id (db s) pid) as [d|] eqn:Hg.
    + rewrite (update_status_record_found _ _ _ _ Hg).
      unfold cached_overall. simpl. by rewrite lookup_insert_eq.
    + unfold cached_overall. simpl. by rewrite lookup_insert_eq.
  - unfold handle_evaluation_failure. rewrite Hts.
    destruct (get_status_document_by_process_id (db s) pid) as [d|] eqn:Hg.
    + rewrite (update_status_record_found _ _ _ _ Hg).
      unfold cached_overall. simpl. by rewrite lookup_insert_eq.
    + unfold cached_overall. simpl. by rewrite lookup_insert_eq.
Qed.

End OrchestratorWrites.

Section OrchestratorWritesExamples.
Import Orchestrator.


(** C8, counterexample: a stop request while the background task waits
    shows [Stopped], and the task's failure handling then shows
    [Failed]; a stop request after the task has ended turns [Failed]
    into [Stopped]. *)
Lemma stopped_then_failed :
  observe "p1" empty_state stopped_run
    = [Some InProgress; Some Stopped; Some Failed] /\
  stays_terminal (observe "p1" empty_state stopped_run) = false /\
  observe "p1" empty_state late_stop_run
    = [Some InProgress; Some Failed; Some Stopped] /\
  stays_terminal (observe "p1" empty_state late_stop_run) = false.
Proof. repeat split; vm_compute; reflexivity. Qed.

Lemma stop_and_finalize_overwrite_witness :
  (exists s1,
     stop_evaluation_task "p1" unrecorded_state =
       (Respond (200, "Evaluation task p1 has been stopped"), s1) /\
     cached_overall s1 "p1" = Some Stopped) /\
  cached_overall (finalize_evaluation "p1" 5 unrecorded_state).2 "p1"
    = Some Failed /\
  cached_overall (handle_evaluation_failure "p1" 5 "boom" unrecorded_state).2 "p1"
    = Some Failed.
Proof.
  destruct (stop_and_finalize_overwrite "p1" 5 "boom" unrecorded_state
              {| models := {[ "cfg1" := InProgress ]};
                 overall_status := InProgress; start_time := 0;
                 end_time := None; error := None |} eq_refl)
    as (Hstop & Hfin & Hfail).
  split; [|split].
  - apply Hstop. reflexivity.
  - exact Hfin.
  - exact Hfail.
Defined.

End OrchestratorWritesExamples.

(** * Further properties of the metric envelope *)

Section MetricMore.
Import Metric.

Lemma is_empty_true s : is_empty s = true <-> s = "".
Proof. destruct s; simpl; split; congruence. Qed.

(** X1. A blank question or answer stops [calculate] at the base check
    of [_validate_input]: whatever the class and whatever the scorer
    would do, the result is the failed result carrying the base message. *)
Theorem blank_input_short_circuits m sb data config t0 t1 :
  strip (question data) = "" \/ strip (answer data) = "" ->
  calculate m sb data config t0 t1 =
  failed_result m
    (failure_message
       (ValueError (if is_empty (strip (question data))
                    then "Question cannot be empty"
                    else "Answer cannot be empty")))
    t0 t1.
Proof.
  intros H. unfold calculate, validate_input, base_validate_input, require.
  destruct (is_empty (strip (question data))) eqn:Eq; [reflexivity|].
  destruct H as [H|H].
  - apply is_empty_true in H. congruence.
  - rewrite H. reflexivity.
Qed.

(** X2. A scorer that outlives the timeout is reported as a timeout by
    every class that reaches its scorer, the classes with a heuristic
    fallback included: the fallback does not mask it. *)
Theorem timeout_is_reported m data config t0 t1 :
  validate_input (cls m) data = Ok tt ->
  has_deepeval_metric m = true \/ cls m = GEvalMetric ->
  calculate m MeasureHangs data config t0 t1 =
  failed_result m (timeout_message m) t0 t1.
Proof.
  intros Hv Hm. unfold calculate. rewrite Hv.
  unfold calculate_metric, wrapper_calculate_metric.
  destruct Hm as [Hm|Hm]; rewrite Hm.
  - destruct (cls m); reflexivity.
  - reflexivity.
Qed.

(** X3. [SummarizationMetric] and [GEvalMetric] fail only when
    validation fails or the scorer times out; any exception of the
    scorer is replaced by the score of the class's heuristic fallback. *)
Theorem fallback_classes_absorb_scorer_errors m sb data config t0 t1 :
  cls m = SummarizationMetric \/ cls m = GEvalMetric ->
  validate_input (cls m) data = Ok tt ->
  sb <> MeasureHangs ->
  success (calculate m sb data config t0 t1) = true /\
  ((forall s, sb <> Measured (Some s)) ->
   score (calculate m sb data config t0 t1) =
   match cls m with
   | SummarizationMetric => fallback_summarization_evaluation data
   | _ => fallback_geval data config
   end).
Proof.
  intros Hc Hv Hh. unfold calculate. rewrite Hv.
  unfold calculate_metric, wrapper_calculate_metric.
  destruct Hc as [Hc|Hc]; rewrite Hc.
  - destruct sb as [|e|e| |[s|]]; try congruence;
      destruct (has_deepeval_metric m); simpl; split; try reflexivity;
      intros Hs; try reflexivity; exfalso; eapply Hs; reflexivity.
  - destruct sb as [|e|e| |[s|]]; try congruence; simpl; split; try reflexivity.
    intros Hs. exfalso; eapply Hs; reflexivity.
Qed.

(** X4. A class without fallback reports an exception of its scorer as
    a failed result whose message carries the exception's text; an
    [ImportError] is reported as "DeepEval library not available". *)
Theorem wrapper_class_reports_scorer_error m e data config t0 t1 :
  cls m <> SummarizationMetric -> cls m <> GEvalMetric ->
  has_deepeval_metric m = true ->
  validate_input (cls m) data = Ok tt ->
  calculate m (MeasureRaises e) data config t0 t1 =
  handle_exception m (wrap_import e) t0 t1.
Proof.
  intros H1 H2 Hm Hv. unfold calculate. rewrite Hv.
  unfold calculate_metric, wrapper_calculate_metric. rewrite Hm.
  destruct (cls m); congruence.
Qed.

End MetricMore.

Section MetricMoreExamples.
Import Metric.

Lemma blank_input_short_circuits_witness :
  calculate bias_metric (Measured (Some (FFin 1))) item_no_answer ∅ 0 1 =
  failed_result bias_metric "Metric calculation failed: Answer cannot be empty" 0 1.
Proof.
  apply (blank_input_short_circuits bias_metric (Measured (Some (FFin 1)))
           item_no_answer ∅ 0 1).
  right. reflexivity.
Defined.

Lemma timeout_is_reported_witness :
  calculate bias_metric MeasureHangs item_ok ∅ 0 1 =
  failed_result bias_metric "Metric calculation timed out after 120s" 0 1.
Proof.
  apply (timeout_is_reported bias_metric item_ok ∅ 0 1).
  - reflexivity.
  - left. reflexivity.
Defined.

Lemma fallback_classes_absorb_scorer_errors_witness :
  success (calculate geval_metric ImportFails item_ok ∅ 0 1) = true /\
  score (calculate geval_metric ImportFails item_ok ∅ 0 1) = FFin (5#10).
Proof.
  destruct (fallback_classes_absorb_scorer_errors geval_metric ImportFails
              item_ok ∅ 0 1) as [Hs Hf].
  - right. reflexivity.
  - reflexivity.
  - discriminate.
  - split; [exact Hs|]. rewrite Hf; [reflexivity|]. intros s. discriminate.
Defined.

Lemma wrapper_class_reports_scorer_error_witness :
  calculate bias_metric (MeasureRaises (ImportError "No module named 'openai'"))
    item_ok ∅ 0 1 =
  failed_result bias_metric
    "Metric calculation failed: DeepEval library not available" 0 1.
Proof.
  apply (wrapper_class_reports_scorer_error bias_metric
           (ImportError "No module named 'openai'") item_ok ∅ 0 1).
  - discriminate.
  - discriminate.
  - reflexivity.
  - reflexivity.
Defined.

End MetricMoreExamples.

(** * Further properties of the batch engine *)

Section EngineMore.
Import Metric Engine.

(** X5. Once [create_metric] has built a metric, asking for the same
    name again returns the same instance from the cache without
    consulting the library, and the first call changed the cache at
    that name only. *)
Theorem create_metric_cached cache l metric_name m cache' :
  create_metric cache l metric_name = (Ok m, cache') ->
  (forall l', create_metric cache' l' metric_name = (Ok m, cache')) /\
  cache' !! metric_name = Some m /\
  (forall other, other <> metric_name -> cache' !! other = cache !! other).
Proof.
  unfold create_metric.
  destruct (cache !! metric_name) as [m0|] eqn:Hc.
  - intros H; inversion H; subst. rewrite Hc. done.
  - destruct (class_of_name metric_name) as [c|]; [|done].
    destruct (new_metric c (l c)) as [m1|e]; [|done].
    intros H; inversion H; subst.
    rewrite lookup_insert_eq. split; [done|]. split; [done|].
    intros other Hne. by rewrite lookup_insert_ne.
Qed.

(** X6. A construction that fails is not cached: the cache is left as
    it was, so a later call tries the construction again and succeeds
    once the library allows it. *)
Theorem create_metric_failure_not_cached cache l metric_name e cache' c m l' :
  create_metric cache l metric_name = (Raise e, cache') ->
  class_of_name metric_name = Some c ->
  new_metric c (l' c) = Ok m ->
  cache' = cache /\
  create_metric cache' l' metric_name = (Ok m, <[metric_name := m]> cache).
Proof.
  unfold create_metric.
  destruct (cache !! metric_name) as [m0|] eqn:Hc; [done|].
  intros H Hk Hn. rewrite Hk in H |- *.
  destruct (new_metric c (l c)); [done|].
  inversion H; subst. rewrite Hc, Hn. done.
Qed.

Lemma class_of_name_registry metric_name c :
  class_of_name metric_name = Some c -> metric_name = registry_name c.
Proof.
  unfold class_of_name.
  repeat match goal with
         | |- context [String.eqb metric_name ?n] =>
             destruct (String.eqb_spec metric_name n) as [->|_];
             [intros H; inversion H; reflexivity|]
         end.
  discriminate.
Qed.

(** X7. The catalogue and the factory disagree: of the names
    [all_metrics] reports, the factory knows every one except
    ["classification"], ["generation"] and ["custom"], for which
    [create_metric] raises "Unknown metric"; every name the factory
    knows is in the catalogue. *)
Theorem catalogue_against_factory :
  (forall metric_name,
     metric_name ∈ Catalog.all_metrics ->
     (class_of_name metric_name = None <->
      metric_name ∈ ["classification"; "generation"; "custom"])) /\
  (forall metric_name c,
     class_of_name metric_name = Some c -> metric_name ∈ Catalog.all_metrics) /\
  (forall metric_name cache l,
     metric_name ∈ ["classification"; "generation"; "custom"] ->
     cache !! metric_name = None ->
     create_metric cache l metric_name =
     (Raise (ValueError ("Unknown metric: " ++ metric_name)), cache)).
Proof.
  split; [|split].
  - intros metric_name Hin.
    unfold Catalog.all_metrics, Catalog.rag_metrics, Catalog.safety_ethics,
      Catalog.task_specific, Catalog.custom_metrics in Hin.
    simpl in Hin. rewrite !elem_of_cons in Hin. rewrite !elem_of_cons.
    destruct Hin as [->|[->|[->|[->|[->|[->|[->|[->|[->|[->|[->|[->|[->|Hin]]]]]]]]]]]]];
      try (by apply elem_of_nil in Hin);
      vm_compute; split; intros H;
      try discriminate; try reflexivity; try tauto;
      repeat (destruct H as [H|H]; [discriminate|]);
      try (by apply elem_of_nil in H).
  - intros metric_name c H. apply class_of_name_registry in H as ->.
    apply list_elem_of_In. destruct c; simpl; tauto.
  - intros metric_name cache l Hin Hc.
    unfold create_metric. rewrite Hc.
    rewrite !elem_of_cons in Hin.
    destruct Hin as [->|[->|[->|Hin]]]; [reflexivity..|].
    by apply elem_of_nil in Hin.
Qed.









End EngineMore.

Section EngineMoreExamples.
Import Metric Engine.

Lemma create_metric_cached_witness :
  create_metric {[ "bias" := bias_metric ]}
    (fun _ => LibRaises (ImportError "gone")) "bias"
  = (Ok bias_metric, {[ "bias" := bias_metric ]}).
Proof.
  destruct (create_metric_cached ∅ (fun _ => LibOk) "bias" bias_metric
              {[ "bias" := bias_metric ]}) as (H & _).
  - reflexivity.
  - apply H.
Defined.

Lemma create_metric_failure_not_cached_witness :
  create_metric ∅ (fun _ => LibOk) "bias"
  = (Ok bias_metric, <["bias" := bias_metric]> ∅).
Proof.
  destruct (create_metric_failure_not_cached ∅
              (fun _ => LibRaises (ImportError "gone")) "bias"
              (Exception "DeepEval library not available for Bias Detection")
              ∅ BiasMetric bias_metric (fun _ => LibOk)) as (_ & H).
  - reflexivity.
  - reflexivity.
  - reflexivity.
  - exact H.
Defined.



End EngineMoreExamples.

(** * Further properties of the batch client *)

Section ClientMore.
Import Engine Client.

Lemma attempts_step attempt seconds tr :
  attempts (Attempt attempt :: Sleep seconds :: tr) = attempt :: attempts tr.
Proof. reflexivity. Qed.

Lemma delays_step attempt seconds tr :
  delays (Attempt attempt :: Sleep seconds :: tr) = seconds :: delays tr.
Proof. reflexivity. Qed.

Lemma retry_loop_S {A} (rpc : nat -> Metric.awaited A) n delay remaining attempt :
  retry_loop rpc n delay (S remaining) attempt =
  match wait_for (rpc attempt) with
  | Ok response => (Ok (Some response), [Attempt attempt])
  | Raise e =>
      if (attempt =? n - 1)%nat then (Raise e, [Attempt attempt])
      else
        let '(r, tr) := retry_loop rpc n delay remaining (S attempt) in
        (r, Attempt attempt :: Sleep (delay * (Qnat attempt + 1)) :: tr)
  end.
Proof. reflexivity. Qed.

Lemma retry_loop_all_fail {A} (rpc : nat -> Metric.awaited A) n delay :
  (forall k, raises (wait_for (rpc k))) ->
  forall remaining attempt,
    (attempt + S remaining = n)%nat ->
    exists e tr,
      wait_for (rpc (n - 1)%nat) = Raise e /\
      retry_loop rpc n delay (S remaining) attempt = (Raise e, tr) /\
      attempts tr = seq attempt (S remaining) /\
      delays tr = (fun k : nat => (delay * (Qnat k + 1))%Q) <$> seq attempt remaining.
Proof.
  intros Hall. induction remaining as [|remaining IH]; intros attempt Hn.
  - rewrite retry_loop_S. specialize (Hall attempt).
    destruct (wait_for (rpc attempt)) as [?|e] eqn:Hw; [destruct Hall|].
    assert (attempt = n - 1)%nat as Heq by lia.
    rewrite <- Heq, Nat.eqb_refl. eexists _, _. repeat split; eauto.
  - rewrite retry_loop_S. pose proof (Hall attempt) as Ha.
    destruct (wait_for (rpc attempt)) as [?|e0]; [destruct Ha|].
    assert ((attempt =? n - 1)%nat = false) as -> by (apply Nat.eqb_neq; lia).
    destruct (IH (S attempt)) as (e & tr & Hlast & -> & Hat & Hde); [lia|].
    exists e, (Attempt attempt :: Sleep (delay * (Qnat attempt + 1)) :: tr).
    split; [done|]. split; [done|]. split.
    + by rewrite attempts_step, Hat.
    + by rewrite delays_step, Hde.
Qed.

Lemma retry_loop_first_success {A} (rpc : nat -> Metric.awaited A) n delay response :
  forall k remaining attempt,
    (attempt + k < n)%nat -> (k < remaining)%nat ->
    (forall j, (attempt <= j < attempt + k)%nat -> raises (wait_for (rpc j))) ->
    wait_for (rpc (attempt + k)%nat) = Ok response ->
    exists tr,
      retry_loop rpc n delay remaining attempt = (Ok (Some response), tr) /\
      attempts tr = seq attempt (S k) /\
      delays tr = (fun k : nat => (delay * (Qnat k + 1))%Q) <$> seq attempt k.
Proof.
  induction k as [|k IH]; intros remaining attempt Hn Hr Hfail Hok.
  - destruct remaining as [|remaining]; [lia|]. rewrite retry_loop_S.
    rewrite Nat.add_0_r in Hok. rewrite Hok. eexists. repeat split; eauto.
  - destruct remaining as [|remaining]; [lia|]. rewrite retry_loop_S.
    pose proof (Hfail attempt ltac:(lia)) as Ha.
    destruct (wait_for (rpc attempt)) as [?|e0]; [destruct Ha|].
    assert ((attempt =? n - 1)%nat = false) as -> by (apply Nat.eqb_neq; lia).
    destruct (IH remaining (S attempt)) as (tr & -> & Hat & Hde); try lia.
    + intros j Hj. apply Hfail. lia.
    + by replace (S attempt + k)%nat with (attempt + S k)%nat by lia.
    + eexists. split; [reflexivity|]. split.
      * by rewrite attempts_step, Hat.
      * by rewrite delays_step, Hde.
Qed.

(** X11. When every call of the RPC fails and [max_retries = n >= 1],
    [_call_with_retries] makes exactly the attempts [0 .. n-1], sleeps
    [retry_delay * (k + 1)] after each failed attempt [k] but the last,
    and raises the exception of the last attempt. *)
Theorem retries_exhausted {A} c (rpc : nat -> Metric.awaited A) n :
  max_retries c = Z.of_nat (S n) ->
  (forall k, raises (wait_for (rpc k))) ->
  exists e,
    wait_for (rpc n) = Raise e /\
    (call_with_retries c rpc).1 = Raise e /\
    attempts (call_with_retries c rpc).2 = seq 0 (S n) /\
    delays (call_with_retries c rpc).2 = (fun k : nat => (retry_delay c * (Qnat k + 1))%Q) <$> seq 0 n.
Proof.
  intros Hn Hall. unfold call_with_retries. rewrite Hn, Nat2Z.id.
  destruct (retry_loop_all_fail rpc (S n) (retry_delay c) Hall n 0)
    as (e & tr & Hlast & -> & Hat & Hde); [lia|].
  exists e. replace (S n - 1)%nat with n in Hlast by lia. done.
Qed.

(** X12. When attempt [k] is the first to succeed and [k < max_retries],
    [_call_with_retries] returns its response after exactly [k + 1]
    attempts and [k] sleeps, and makes no further call. *)
Theorem retries_stop_at_first_success {A} c (rpc : nat -> Metric.awaited A)
    k response :
  (Z.of_nat k < max_retries c)%Z ->
  (forall j, (j < k)%nat -> raises (wait_for (rpc j))) ->
  wait_for (rpc k) = Ok response ->
  (call_with_retries c rpc).1 = Ok (Some response) /\
  attempts (call_with_retries c rpc).2 = seq 0 (S k) /\
  delays (call_with_retries c rpc).2 = (fun k : nat => (retry_delay c * (Qnat k + 1))%Q) <$> seq 0 k.
Proof.
  intros Hk Hfail Hok. unfold call_with_retries.
  destruct (retry_loop_first_success rpc (Z.to_nat (max_retries c)) (retry_delay c)
              response k (Z.to_nat (max_retries c)) 0)
    as (tr & -> & Hat & Hde); try lia; try done.
  intros j Hj. apply Hfail. lia.
Qed.

(** X13. With [max_retries <= 0] the RPC is never called:
    [_call_with_retries] returns [None], and [calculate_batch_metrics]
    answers with the local fallback whose error text is that of the
    attribute access on [None]. *)
Theorem no_retries_no_call c u rpc data names pid uid cfg :
  (max_retries c <= 0)%Z ->
  Client.grpc_available c = true -> has_stub c = true ->
  call_with_retries c (rpc (build_request data names pid uid cfg)) = (Ok None, []) /\
  calculate_batch_metrics c u rpc data names pid uid cfg =
  (mock_batch_metrics_response u data names
     (Some "'NoneType' object has no attribute 'success'"), []).
Proof.
  intros Hn Hg Hs.
  assert (Hc : forall A (f : nat -> Metric.awaited A),
             call_with_retries c f = (Ok None, [])).
  { intros A f. unfold call_with_retries.
    replace (Z.to_nat (max_retries c)) with 0%nat by lia. reflexivity. }
  split; [apply Hc|].
  unfold calculate_batch_metrics, remote_batch_metrics.
  rewrite Hg, Hs, Hc. reflexivity.
Qed.

(** X14. A response in which the engine reports [success = false] is
    not retried: after that single attempt the client answers with the
    local fallback, keeping the engine's error text. *)
Theorem engine_failure_replaced_by_fallback c u rpc data names pid uid cfg response :
  Client.grpc_available c = true -> has_stub c = true ->
  (0 < max_retries c)%Z ->
  rpc (build_request data names pid uid cfg) 0%nat = Metric.Finished (Ok response) ->
  resp_success response = false ->
  calculate_batch_metrics c u rpc data names pid uid cfg =
  (mock_batch_metrics_response u data names
     (Some ("DeepEval service error: " ++ resp_error_message response)),
   [Attempt 0]).
Proof.
  intros Hg Hs Hn Hr Hf.
  unfold calculate_batch_metrics, remote_batch_metrics, call_with_retries.
  rewrite Hg, Hs. simpl negb. cbv iota.
  destruct (Z.to_nat (max_retries c)) as [|n] eqn:En; [lia|].
  cbn [retry_loop]. rewrite Hr. simpl. rewrite Hf. reflexivity.
Qed.

(** X15. [calculate_batch_metrics] never reports a failure: whatever
    the client's settings and whatever the engine does, when every
    record's question is a string it returns a result with
    [success = True]. *)
Theorem batch_metrics_always_success c u rpc data names pid uid cfg :
  Forall (fun item => exists s, dict_get item "question" (PyStr "") = PyStr s) data ->
  exists r,
    (calculate_batch_metrics c u rpc data names pid uid cfg).1 = Ok r /\
    success r = true.
Proof.
  intros Hall. unfold calculate_batch_metrics.
  assert (Hm : forall err, exists r,
             mock_batch_metrics_response u data names err = Ok r /\ success r = true).
  { intros err.
    destruct (mock_batch_metrics_response_shape u data names err Hall)
      as (r & Hr & Hs & _). eauto. }
  destruct (negb (Client.grpc_available c)); [apply Hm|].
  destruct (remote_batch_metrics c rpc data names pid uid cfg) as [[r|e] tr] eqn:Hrem.
  - simpl. exists r. split; [done|].
    unfold remote_batch_metrics in Hrem.
    destruct (negb (has_stub c)); [done|].
    destruct (call_with_retries c _) as [[[resp|]|e] tr']; try done.
    destruct (negb (resp_success resp)); [done|].
    by inversion Hrem.
  - simpl. apply Hm.
Qed.

End ClientMore.

Section ClientMoreExamples.
Import Engine Client.

Lemma retries_exhausted_witness :
  exists e,
    wait_for (silent_engine (sample_request [] []) 2) = Raise e /\
    (call_with_retries default_client (silent_engine (sample_request [] []))).1
      = Raise e /\
    attempts (call_with_retries default_client
                (silent_engine (sample_request [] []))).2 = seq 0 3 /\
    delays (call_with_retries default_client
              (silent_engine (sample_request [] []))).2
      = (fun k : nat => (retry_delay default_client * (Qnat k + 1))%Q) <$> seq 0 2.
Proof.
  apply (retries_exhausted default_client
           (silent_engine (sample_request [] [])) 2).
  - reflexivity.
  - intros k. exact I.
Defined.

Lemma retries_stop_at_first_success_witness :
  (call_with_retries default_client (flaky_engine (sample_request [] []))).1
    = Ok (Some default_bias_response) /\
  attempts (call_with_retries default_client
              (flaky_engine (sample_request [] []))).2 = seq 0 2 /\
  delays (call_with_retries default_client
            (flaky_engine (sample_request [] []))).2
    = (fun k : nat => (retry_delay default_client * (Qnat k + 1))%Q) <$> seq 0 1.
Proof.
  apply (retries_stop_at_first_success default_client
           (flaky_engine (sample_request [] [])) 1 default_bias_response).
  - simpl. lia.
  - intros j Hj. assert (j = 0)%nat as -> by lia. exact I.
  - reflexivity.
Defined.

Lemma no_retries_no_call_witness :
  call_with_retries impatient_client
    (silent_engine (build_request [sample_record] ["bias"] "p1" "u1" None))
    = (Ok None, []) /\
  calculate_batch_metrics impatient_client zero_draws silent_engine
    [sample_record] ["bias"] "p1" "u1" None =
  (mock_batch_metrics_response zero_draws [sample_record] ["bias"]
     (Some "'NoneType' object has no attribute 'success'"), []).
Proof.
  apply (no_retries_no_call impatient_client zero_draws silent_engine
           [sample_record] ["bias"] "p1" "u1" None).
  - simpl. lia.
  - reflexivity.
  - reflexivity.
Defined.

Lemma engine_failure_replaced_by_fallback_witness :
  calculate_batch_metrics default_client zero_draws refusing_engine
    [sample_record] ["bias"] "p1" "u1" None =
  (mock_batch_metrics_response zero_draws [sample_record] ["bias"]
     (Some ("DeepEval service error: "
            ++ resp_error_message (create_error_response "boom"))),
   [Attempt 0]).
Proof.
  apply (engine_failure_replaced_by_fallback default_client zero_draws
           refusing_engine [sample_record] ["bias"] "p1" "u1" None
           (create_error_response "boom")).
  - reflexivity.
  - reflexivity.
  - simpl. lia.
  - reflexivity.
  - reflexivity.
Defined.

Lemma batch_metrics_always_success_witness :
  exists r,
    (calculate_batch_metrics default_client zero_draws refusing_engine
       [sample_record] ["bias"] "p1" "u1" None).1 = Ok r /\
    success r = true.
Proof.
  apply (batch_metrics_always_success default_client zero_draws refusing_engine
           [sample_record] ["bias"] "p1" "u1" None).
  constructor; [|constructor].
  exists "What is AI?". reflexivity.
Defined.

End ClientMoreExamples.

(** * The ranges of the mock scores *)

Section MockRanges.
Import Engine.













End MockRanges.

Section MockRangesExamples.
Import Engine Client.




End MockRangesExamples.

(** * Further properties of the orchestrator *)

Section OrchestratorMore.
Import Orchestrator.

Lemma length_take_str n s : String.length (take_str n s) <= n.
Proof.
  unfold take_str. revert s. induction n as [|n IH]; intros s; simpl.
  - destruct s; simpl; lia.
  - destruct s as [|c s]; simpl; [lia|]. specialize (IH s). lia.
Qed.

(** X21. A start request either is accepted, and then it only appends
    one task (a handler of the requesting user under the returned
    process id, of at most 8 characters) and writes nothing to the
    cache or the store, or it is refused with status 422 or 400 and
    leaves the orchestrator as it was. *)
Theorem start_request_effect org p session_uuid process_uuid s :
  match evaluate_dataset org p session_uuid process_uuid s with
  | (Respond r, s') =>
      task_statuses s' = task_statuses s /\ db s' = db s /\
      resp_status_code r = 200 /\
      String.length (resp_process_id r) <= 8 /\
      exists request,
        make_request p session_uuid = Ok request /\
        background_tasks s' =
          (background_tasks s ++ [(new_handler request org, resp_process_id r)])%list
  | (HTTPException code _, s') =>
      s' = s /\ (code = 422 \/ code = 400)
  end.
Proof.
  unfold evaluate_dataset.
  destruct (make_request p session_uuid) as [request|e]; [|split; auto].
  destruct (check_ongoing_task (db s) (user_id request)); [split; auto|].
  simpl. repeat split; try done.
  - apply length_take_str.
  - by exists request.
Qed.

End OrchestratorMore.

(** * The results route *)

Section ResultsFacts.
Import Orchestrator Results.

(** X22. The results route reports the number of pages as the ceiling
    of [total_count / page_size]: for a positive page size and a
    non-negative count it is the least number of pages that hold all
    rows; a page size of zero ends in a 500 response. *)
Theorem results_total_pages {row : Type} page page_size (rows : list row) count :
  (0 <= count)%Z ->
  (page_size = 0%Z ->
   get_process_results page page_size (rows, count) =
   HTTPException 500
     "Error retrieving results: integer division or modulo by zero") /\
  ((0 < page_size)%Z ->
   exists pages,
     get_process_results page page_size (rows, count) =
     Respond (rows, {| Results.page := page; Results.page_size := page_size;
                       total_count := count; total_pages := pages |}) /\
     ((pages - 1) * page_size < count)%Z /\ (count <= pages * page_size)%Z).
Proof.
  intros Hc. unfold get_process_results, floordiv. split.
  - intros ->. reflexivity.
  - intros Hp. assert ((page_size =? 0)%Z = false) as -> by lia.
    eexists. split; [reflexivity|].
    pose proof (Z.div_mod (count + page_size - 1) page_size ltac:(lia)) as Hdm.
    pose proof (Z.mod_pos_bound (count + page_size - 1) page_size Hp) as Hb.
    nia.
Qed.

End ResultsFacts.

Section ResultsExamples.
Import Orchestrator Results.

Lemma results_total_pages_witness :
  (get_process_results 1 0 ([] : list nat, 25%Z) =
   HTTPException 500
     "Error retrieving results: integer division or modulo by zero") /\
  exists pages,
    get_process_results 1 10 ([] : list nat, 25%Z) =
    Respond ([], {| Results.page := 1; Results.page_size := 10;
                    total_count := 25; total_pages := pages |}) /\
    ((pages - 1) * 10 < 25)%Z /\ (25 <= pages * 10)%Z.
Proof.
  split.
  - apply (results_total_pages (row := nat) 1 0 [] 25); [lia|reflexivity].
  - apply (results_total_pages (row := nat) 1 10 [] 25); lia.
Defined.

End ResultsExamples.

(** * Stop requests, runs and the status stream *)

Section OrchestratorStore.
Import Orchestrator Status.

(** What a stop request answers and leaves. *)
Lemma stop_evaluation_task_cases pid s :
  stop_evaluation_task pid s =
  match get_status_document_by_process_id (db s) pid with
  | Some _ =>
      (HTTPException 500
         "Error stopping task: update only works with $ operators", s)
  | None =>
      (Respond (200, "Evaluation task " ++ pid ++ " has been stopped"),
       match task_statuses s !! pid with
       | Some ts =>
           with_cache s
             (<[pid := {| models := models ts; overall_status := Stopped;
                          start_time := start_time ts; end_time := end_time ts;
                          error := error ts |}]> (task_statuses s))
       | None => s
       end)
  end.
Proof.
  unfold stop_evaluation_task, stop_state.
  destruct (get_status_document_by_process_id (db s) pid) as [d|] eqn:Hg.
  - by rewrite (update_status_record_found _ _ _ _ Hg).
  - simpl. by destruct (task_statuses s !! pid).
Qed.

Lemma stop_keeps_store pid s : db (stop_evaluation_task pid s).2 = db s.
Proof.
  rewrite stop_evaluation_task_cases.
  destruct (get_status_document_by_process_id (db s) pid); [done|].
  simpl. by destruct (task_statuses s !! pid).
Qed.

(** X19. A stop request for a process whose status document the store
    returns answers 500 and changes nothing, the cache included: the
    write of the stopped document raises.  Otherwise it answers 200 and
    marks the cache entry, if there is one, as [Stopped].  In neither
    case does the store change, so [check_ongoing_task] answers for
    every user what it answered before, and a start request of a user
    who was refused is refused again. *)
Theorem stop_request_outcome pid s :
  (forall d, get_status_document_by_process_id (db s) pid = Some d ->
     stop_evaluation_task pid s =
     (HTTPException 500
        "Error stopping task: update only works with $ operators", s)) /\
  (get_status_document_by_process_id (db s) pid = None ->
     (stop_evaluation_task pid s).1 =
       Respond (200, "Evaluation task " ++ pid ++ " has been stopped") /\
     background_tasks (stop_evaluation_task pid s).2 = background_tasks s /\
     forall ts, task_statuses s !! pid = Some ts ->
       task_statuses (stop_evaluation_task pid s).2 =
       <[pid := {| models := models ts; overall_status := Stopped;
                   start_time := start_time ts; end_time := end_time ts;
                   error := error ts |}]> (task_statuses s)) /\
  db (stop_evaluation_task pid s).2 = db s /\
  (forall user, check_ongoing_task (db (stop_evaluation_task pid s).2) user
                = check_ongoing_task (db s) user) /\
  (forall org p session_uuid process_uuid,
     (evaluate_dataset org p session_uuid process_uuid s).1
       = HTTPException 400 "User already has an ongoing evaluation task." ->
     (evaluate_dataset org p session_uuid process_uuid
        (stop_evaluation_task pid s).2).1
       = HTTPException 400 "User already has an ongoing evaluation task.").
Proof.
  pose proof (stop_keeps_store pid s) as Hdb.
  split; [|split; [|split; [|split]]].
  - intros d Hd. by rewrite stop_evaluation_task_cases, Hd.
  - intros Hg. rewrite stop_evaluation_task_cases, Hg. simpl.
    split; [done|]. split; [by destruct (task_statuses s !! pid)|].
    by intros ts ->.
  - exact Hdb.
  - intros user. by rewrite Hdb.
  - intros org p session_uuid process_uuid. unfold evaluate_dataset.
    rewrite Hdb.
    destruct (make_request p session_uuid) as [request|e]; [|done].
    by destruct (check_ongoing_task (db s) (user_id request)).
Qed.

Lemma begin_evaluation_lookup h pid started s :
  task_statuses (begin_evaluation h pid started s) !! pid =
  Some {| models := list_to_map ((fun m => (m, NotStarted)) <$> config_ids h);
          overall_status := InProgress;
          start_time := started; end_time := None; error := None |}.
Proof. unfold begin_evaluation. simpl. by rewrite lookup_insert_eq. Qed.

(** The [try] body of [background_evaluation] never gets past the
    initial status record. *)
Lemma evaluation_steps_raise h pid loaded ended s :
  evaluation_steps h pid loaded ended s =
  (Raise (if connected (db s)
          then ValueError "update only works with $ operators"
          else Exception "Database not connected"), s).
Proof.
  unfold evaluation_steps, store_initial_config.
  destruct (connected (db s)) eqn:Hc; [|done].
  unfold create_initial_status_record. cbv zeta.
  by rewrite update_status_record_raises, Hc.
Qed.

(** The rest of a background task always ends in its failure
    handling. *)
Lemma resume_evaluation_fails h pid loaded ended failed s ts :
  task_statuses s !! pid = Some ts ->
  let msg := if connected (db s)
             then "update only works with $ operators"
             else "Database not connected" in
  resume_evaluation h pid loaded ended failed s =
  (Raise (match get_status_document_by_process_id (db s) pid with
          | Some _ => ValueError "update only works with $ operators"
          | None => Exception ("Evaluation failed: " ++ msg)
          end),
   with_cache s
     (<[pid := {| models := models ts; overall_status := Failed;
                  start_time := start_time ts; end_time := Some failed;
                  error := Some msg |}]> (task_statuses s))).
Proof.
  intros Hts. cbv zeta. unfold resume_evaluation.
  rewrite evaluation_steps_raise.
  unfold handle_evaluation_failure. rewrite Hts.
  destruct (get_status_document_by_process_id (db s) pid) as [d|] eqn:Hg.
  - rewrite (update_status_record_found _ _ _ _ Hg).
    apply get_Some_connected in Hg as [Hc _]. by rewrite Hc.
  - by destruct (connected (db s)).
Qed.

Lemma run_cache_entry h pid loaded started ended failed s :
  exists ts,
    task_statuses (background_evaluation h pid loaded started ended failed s).2
      !! pid = Some ts /\
    models ts = list_to_map ((fun m => (m, NotStarted)) <$> config_ids h) /\
    overall_status ts = Failed.
Proof.
  unfold background_evaluation.
  rewrite (resume_evaluation_fails h pid loaded ended failed _ _
             (begin_evaluation_lookup h pid started s)).
  simpl. rewrite lookup_insert_eq. eauto.
Qed.


(** The model statuses the stream lists are those of the cache entry,
    or of the stored document when the cache has none. *)
Lemma get_status_details_stop pid s :
  (get_status_details (stop_evaluation_task pid s).2 pid).1
  = (get_status_details s pid).1.
Proof.
  unfold get_status_details. rewrite stop_keeps_store.
  rewrite stop_evaluation_task_cases.
  destruct (get_status_document_by_process_id (db s) pid) as [d|] eqn:Hg; [done|].
  simpl. destruct (task_statuses s !! pid) as [ts|] eqn:Hts.
  - simpl. by rewrite lookup_insert_eq.
  - by rewrite Hts.
Qed.

(** X25. A stop request never ends the status stream and never changes
    the models it lists: the round after the stop request is of the
    same kind (error, status, final status) as the round before it,
    with the same model statuses. *)
Theorem stop_does_not_end_stream pid s :
  match event_round s pid, event_round (stop_evaluation_task pid s).2 pid with
  | Retry _, Retry _ => True
  | Continue ms _, Continue ms' _ => ms = ms'
  | Final ms _, Final ms' _ => ms = ms'
  | _, _ => False
  end.
Proof.
  pose proof (get_status_details_stop pid s) as H.
  unfold event_round.
  destruct (get_status_details s pid) as [[ms|] o];
    destruct (get_status_details (stop_evaluation_task pid s).2 pid) as [[ms'|] o'];
    simpl in H; try discriminate; [|done].
  inversion H as [Heq]. by destruct (all_tasks_complete ms).
Qed.

Lemma iter_stop_models pid n : forall s,
  (get_status_details
     (Nat.iter n (fun s' => (stop_evaluation_task pid s').2) s) pid).1
  = (get_status_details s pid).1.
Proof.
  induction n as [|n IH]; intros s; [done|].
  simpl. by rewrite get_status_details_stop.
Qed.

Lemma not_started_incomplete (ids : list string) :
  ids <> [] ->
  all_tasks_complete
    (map_to_list (list_to_map ((fun m => (m, NotStarted)) <$> ids)
                  : gmap string status)) = false.
Proof.
  intros Hne. destruct ids as [|id ids]; [done|].
  apply not_true_iff_false. intros Hall.
  unfold all_tasks_complete in Hall. rewrite forallb_forall in Hall.
  set (M := list_to_map ((fun m => (m, NotStarted)) <$> id :: ids)
            : gmap string status) in *.
  assert (exists v, M !! id = Some v) as [v Hv].
  { apply elem_of_dom. subst M. rewrite dom_list_to_map_L.
    rewrite <- list_fmap_compose. apply elem_of_list_to_set.
    simpl. apply list_elem_of_here. }
  assert (v = NotStarted) as ->.
  { subst M. apply elem_of_list_to_map_2 in Hv.
    apply list_elem_of_fmap in Hv as (y & Hy & _). by inversion Hy. }
  specialize (Hall (id, NotStarted)).
  rewrite <- list_elem_of_In, elem_of_map_to_list in Hall.
  specialize (Hall Hv). apply bool_decide_eq_true in Hall. simpl in Hall.
  rewrite !elem_of_cons in Hall.
  destruct Hall as [Hall|[Hall|Hall]]; [discriminate..|].
  by apply elem_of_nil in Hall.
Qed.

(** X26. The status stream of a started evaluation never ends.  After
    a run of [background_evaluation] for a handler with at least one
    model, and after any number of stop requests that follow it, every
    round of the stream is a status event followed by another round: it
    lists each configured model, all of them [Not Started]. *)
Theorem failed_run_stream_never_ends h pid loaded started ended failed s n :
  config_ids h <> [] ->
  exists ms overall,
    event_round
      (Nat.iter n (fun s' => (stop_evaluation_task pid s').2)
         (background_evaluation h pid loaded started ended failed s).2) pid
    = Continue ms overall /\
    (forall id, id ∈ ms.*1 <-> id ∈ config_ids h) /\
    Forall (fun m => m.2 = NotStarted) ms.
Proof.
  intros Hne.
  set (M := list_to_map ((fun m => (m, NotStarted)) <$> config_ids h)
            : gmap string status).
  pose proof (iter_stop_models pid n
                (background_evaluation h pid loaded started ended failed s).2) as Hit.
  assert (Hrun : (get_status_details
                    (background_evaluation h pid loaded started ended failed s).2
                    pid).1 = Some (map_to_list M)).
  { destruct (run_cache_entry h pid loaded started ended failed s)
      as (ts & Hts & Hm & _).
    unfold get_status_details. rewrite Hts. simpl. by rewrite Hm. }
  rewrite Hrun in Hit. unfold event_round.
  destruct (get_status_details _ pid) as [[ms|] o] eqn:Hd in Hit |- *;
    simpl in Hit; [|discriminate].
  inversion Hit; subst ms.
  pose proof (not_started_incomplete _ Hne) as Hinc. fold M in Hinc.
  rewrite Hinc.
  exists (map_to_list M), o. split; [done|]. split.
  - intros id. rewrite <- (elem_of_list_to_set (C := gset string) id (config_ids h)).
    assert (dom M = list_to_set (config_ids h)) as <-.
    { subst M. rewrite dom_list_to_map_L. by rewrite <- list_fmap_compose, list_fmap_id. }
    rewrite elem_of_dom. split.
    + intros Hin. apply list_elem_of_fmap in Hin as ([i v] & -> & Hin).
      apply elem_of_map_to_list in Hin. eauto.
    + intros [v Hv]. apply list_elem_of_fmap. exists (id, v). split; [done|].
      by apply elem_of_map_to_list.
  - apply Forall_forall. intros [id v] Hin.
    apply elem_of_map_to_list in Hin. subst M.
    apply elem_of_list_to_map_2 in Hin.
    apply list_elem_of_fmap in Hin as (y & Hy & _). by inversion Hy.
Qed.

End OrchestratorStore.

Section OrchestratorStoreExamples.
Import Orchestrator Status.

Lemma failed_run_stream_never_ends_witness :
  exists ms overall,
    event_round
      (Nat.iter 1 (fun s' => (stop_evaluation_task "p1" s').2)
         (background_evaluation sample_handler "p1" all_loaded 0 5 5
            empty_state).2) "p1"
    = Continue ms overall /\
    (forall id, id ∈ ms.*1 <-> id ∈ config_ids sample_handler) /\
    Forall (fun m => m.2 = NotStarted) ms.
Proof.
  apply (failed_run_stream_never_ends sample_handler "p1" all_loaded 0 5 5
           empty_state 1).
  discriminate.
Defined.

Example failed_run_then_stop :
  event_round
    (Nat.iter 1 (fun s' => (stop_evaluation_task "p1" s').2)
       (background_evaluation sample_handler "p1" all_loaded 0 5 5
          empty_state).2) "p1"
  = Continue [("cfg1", NotStarted)] "Stopped".
Proof. vm_compute. reflexivity. Qed.

End OrchestratorStoreExamples.
